(** * mine.py: proof-of-work mining with reactive difficulty retargeting

    A shallow embedding of [src/mine.py] (classes [Block] and [Blockchain])
    and the properties of its difficulty policy and mining loop.

    Python values are modelled as the interpreter has them:
    - [int] is [Z] (unbounded);
    - [float] is IEEE 754 binary64, i.e. Rocq's primitive [float], so that
      sums, differences and comparisons of timestamps round as they do
      in CPython;
    - [str] is [string]; every text that is hashed here is ASCII, for which
      [.encode("utf-8")] is the identity on bytes;
    - [hashlib.sha256] is SHA-256 (FIPS 180-4), implemented below;
    - [time.time()] and the [rich] display are the outside world: a clock
      that hands out one reading per call and the list of tables shown. *)

From Stdlib Require Import ZArith List String Ascii Bool Lia.
From Stdlib Require Import Numbers.DecimalString.
From Stdlib Require Import Floats.PrimFloat Floats.SpecFloat Floats.FloatOps.
Import ListNotations.

Local Open Scope Z_scope.

(** ** SHA-256 on byte strings, 32-bit words as [Z] with explicit wrap-around *)

Module SHA256.

Definition w32 (x : Z) : Z := Z.land x 0xffffffff.

Definition add32 (x y : Z) : Z := w32 (x + y).

Definition rotr (n x : Z) : Z :=
  Z.lor (Z.shiftr x n) (w32 (Z.shiftl x (32 - n))).

Definition Ch (x y z : Z) : Z :=
  Z.lxor (Z.land x y) (Z.land (Z.lxor x 0xffffffff) z).

Definition Maj (x y z : Z) : Z :=
  Z.lxor (Z.land x y) (Z.lxor (Z.land x z) (Z.land y z)).

Definition Sigma0 (x : Z) : Z := Z.lxor (rotr 2 x) (Z.lxor (rotr 13 x) (rotr 22 x)).
Definition Sigma1 (x : Z) : Z := Z.lxor (rotr 6 x) (Z.lxor (rotr 11 x) (rotr 25 x)).
Definition sigma0 (x : Z) : Z := Z.lxor (rotr 7 x) (Z.lxor (rotr 18 x) (Z.shiftr x 3)).
Definition sigma1 (x : Z) : Z := Z.lxor (rotr 17 x) (Z.lxor (rotr 19 x) (Z.shiftr x 10)).

(** The round constants are the first 32 bits of the fractional parts of
    the cube roots of the first 64 primes; the initial hash value is the
    same for the square roots of the first 8 (FIPS 180-4, 4.2.2, 5.3.3). *)
Definition is_prime (n : nat) : bool :=
  forallb (fun d => negb (Nat.eqb (n mod d) 0)) (seq 2 (n - 2)).

Definition primes : list Z := map Z.of_nat (filter is_prime (seq 2 310)).

(** [floor (n ^ (1/k))], one bit at a time from bit 40 down. *)
Definition iroot (k n : Z) : Z :=
  fold_left (fun r b => let r' := r + 2 ^ Z.of_nat b in if r' ^ k <=? n then r' else r)
            (rev (seq 0 41)) 0.

Definition frac32_root (k p : Z) : Z := w32 (iroot k (p * 2 ^ (32 * k))).

Definition K : list Z := Eval vm_compute in map (frac32_root 3) primes.

Definition H0 : list Z := Eval vm_compute in map (frac32_root 2) (firstn 8 primes).

(** Padding: a 1 bit, zero bits up to 56 mod 64 bytes, then the bit length
    as a 64-bit big-endian integer. *)
Definition be_bytes (n : nat) (x : Z) : list Z :=
  map (fun i => Z.land (Z.shiftr x (8 * Z.of_nat i)) 0xff) (rev (seq 0 n)).

Definition pad (msg : list Z) : list Z :=
  let len := Z.of_nat (List.length msg) in
  let zeros := Z.to_nat ((55 - len) mod 64) in
  (msg ++ 0x80 :: repeat 0 zeros ++ be_bytes 8 (8 * len))%list.

Definition be_word (bs : list Z) : Z :=
  fold_left (fun acc b => Z.lor (Z.shiftl acc 8) b) bs 0.

(** Cut a list into pieces of [n] elements; [fuel] bounds the number of pieces. *)
Fixpoint chunks {A} (n fuel : nat) (l : list A) : list (list A) :=
  match fuel, l with
  | O, _ | _, [] => []
  | S fuel', _ => firstn n l :: chunks n fuel' (skipn n l)
  end.

(** The message schedule, most recent word first: [sched] holds
    W[t-1], W[t-2], ... and is extended by
    W[t] = sigma1 W[t-2] + W[t-7] + sigma0 W[t-15] + W[t-16]. *)
Fixpoint extend (n : nat) (sched : list Z) : list Z :=
  match n with
  | O => sched
  | S n' =>
      let w := add32 (add32 (sigma1 (nth 1 sched 0)) (nth 6 sched 0))
                     (add32 (sigma0 (nth 14 sched 0)) (nth 15 sched 0)) in
      extend n' (w :: sched)
  end.

Definition schedule (block : list Z) : list Z :=
  rev (extend 48 (rev (map be_word (chunks 4 16 block)))).

Record regs := Regs { ra : Z; rb : Z; rc : Z; rd : Z; re : Z; rf : Z; rg : Z; rh : Z }.

Definition round (s : regs) (kw : Z * Z) : regs :=
  let '(k, w) := kw in
  let t1 := add32 (add32 (add32 (rh s) (Sigma1 (re s))) (add32 (Ch (re s) (rf s) (rg s)) k)) w in
  let t2 := add32 (Sigma0 (ra s)) (Maj (ra s) (rb s) (rc s)) in
  Regs (add32 t1 t2) (ra s) (rb s) (rc s) (add32 (rd s) t1) (re s) (rf s) (rg s).

Definition compress (h : regs) (block : list Z) : regs :=
  let s := fold_left round (combine K (schedule block)) h in
  Regs (add32 (ra h) (ra s)) (add32 (rb h) (rb s)) (add32 (rc h) (rc s)) (add32 (rd h) (rd s))
       (add32 (re h) (re s)) (add32 (rf h) (rf s)) (add32 (rg h) (rg s)) (add32 (rh h) (rh s)).

Definition init : regs :=
  Regs (nth 0 H0 0) (nth 1 H0 0) (nth 2 H0 0) (nth 3 H0 0)
       (nth 4 H0 0) (nth 5 H0 0) (nth 6 H0 0) (nth 7 H0 0).

Definition digest_words (msg : list Z) : list Z :=
  let p := pad msg in
  let s := fold_left compress (chunks 64 (List.length p) p) init in
  [ra s; rb s; rc s; rd s; re s; rf s; rg s; rh s].

Definition hex_digit (d : Z) : ascii :=
  ascii_of_nat (Z.to_nat (if d <? 10 then 48 + d else 87 + d)).

(** Eight lower-case hexadecimal digits of a 32-bit word. *)
Definition hex_word (w : Z) : string :=
  string_of_list_ascii
    (map (fun i => hex_digit (Z.land (Z.shiftr w (4 * Z.of_nat i)) 0xf)) (rev (seq 0 8))).

Definition bytes_of_string (s : string) : list Z :=
  map (fun c => Z.of_nat (nat_of_ascii c)) (list_ascii_of_string s).

(** [hashlib.sha256(); update(data); hexdigest()] *)
Definition hexdigest (data : string) : string :=
  fold_right (fun w acc => (hex_word w ++ acc)%string) EmptyString
             (digest_words (bytes_of_string data)).

End SHA256.

(** ** Python values: exceptions, [str(int)], [repr(float)], int-to-float *)

Module Py.

Inductive exn := OverflowError | IndexError.

Inductive result (A : Type) : Type :=
| Ok (a : A)
| Raise (e : exn).
Arguments Ok {A} a.
Arguments Raise {A} e.

Definition bind {A B} (c : result A) (k : A -> result B) : result B :=
  match c with
  | Ok a => k a
  | Raise e => Raise e
  end.

(** [l[i]] with Python's negative indices: [IndexError] out of range. *)
Definition getitem {A} (l : list A) (i : Z) : result A :=
  let n := Z.of_nat (List.length l) in
  let j := if i <? 0 then i + n else i in
  if (j <? 0) || (n <=? j) then Raise IndexError
  else match nth_error l (Z.to_nat j) with
       | Some a => Ok a
       | None => Raise IndexError
       end.

(** [str(z)] for an [int]: the decimal text. CPython 3.11 and later refuse
    to print an [int] of more than 4300 digits (ValueError, the default of
    [sys.int_max_str_digits]); that limit is not modelled. The integers a
    run prints are positions and nonces counted up from 0. *)
Definition str_int (z : Z) : string := NilEmpty.string_of_int (Z.to_int z).

(** [s * n] for a [str] and an [int]: empty when [n <= 0]. *)
Fixpoint str_repeat (s : string) (n : nat) : string :=
  match n with
  | O => EmptyString
  | S n' => (s ++ str_repeat s n')%string
  end.

Definition str_mul (s : string) (n : Z) : string := str_repeat s (Z.to_nat n).

(** [s.lstrip(c)] for a one-character set. *)
Fixpoint lstrip (c : ascii) (s : string) : string :=
  match s with
  | String a s' => if Ascii.eqb a c then lstrip c s' else s
  | EmptyString => EmptyString
  end.

(** [float(z)] as [int * float] performs it: round to nearest, ties to
    even; [OverflowError] when the result is not finite. *)
Definition float_of_int (z : Z) : result float :=
  match binary_normalize prec emax z 0 false with
  | S754_infinity _ => Raise OverflowError
  | S754_nan => Raise OverflowError
  | sf => Ok (SF2Prim sf)
  end.

(** [z * f] for an [int] and a [float]. *)
Definition mul_int_float (z : Z) (f : float) : result float :=
  bind (float_of_int z) (fun zf => Ok (PrimFloat.mul zf f)).

(** *** [repr(float)]: the shortest decimal that reads back as the same
    binary64 value, nearest to it among the shortest (dtoa mode 0),
    printed as [float_repr_style = 'short'] does.

    A positive finite value is [m * 2^e]. All comparisons are made on
    integers, in units of [2^(e-2)]: the value is [4m], the upper end of
    its rounding interval is [4m+2] and the lower end [4m-2], or [4m-1]
    when [m] is the least mantissa of a binade. The decimal [c * 10^k] is
    [c * P / Q] in these units, for [(P, Q) = scale e k]. *)

Definition scale (e k : Z) : Z * Z :=
  (10 ^ Z.max k 0 * 2 ^ Z.max (2 - e) 0, 10 ^ Z.max (- k) 0 * 2 ^ Z.max (e - 2) 0).

(** Is [10^p <= m * 2^e]? *)
Definition ge_pow10 (m e p : Z) : bool :=
  let '(P, Q) := scale e p in P <=? 4 * m * Q.

(** [floor (log10 (m * 2^e))]: an estimate from the binary logarithm,
    then the largest [p] around it with [10^p <= m * 2^e]. *)
Definition floor_log10 (m e : Z) : Z :=
  let est := ((Z.log2 m + e) * 1233) / 4096 in
  match find (ge_pow10 m e) [est + 2; est + 1; est; est - 1] with
  | Some p => p
  | None => est - 2
  end.

Definition inside (m e : Z) (c k : Z) : bool :=
  let '(P, Q) := scale e k in
  let lo := if (m =? 2 ^ 52) && (-1074 <? e) then 4 * m - 1 else 4 * m - 2 in
  let hi := 4 * m + 2 in
  if Z.even m then (lo * Q <=? c * P) && (c * P <=? hi * Q)
  else (lo * Q <? c * P) && (c * P <? hi * Q).

(** Try [n], [n+1], ... significant digits; 17 always suffice. *)
Fixpoint shortest_from (fuel : nat) (m e p n : Z) : Z * Z :=
  match fuel with
  | O => (0, 0)
  | S fuel' =>
      let k := p - n + 1 in
      let '(P, Q) := scale e k in
      let dl := (4 * m * Q) / P in
      let dh := dl + 1 in
      let okl := inside m e dl k in
      let okh := inside m e dh k in
      if okl && okh then
        let twice_v := 2 * (4 * m * Q) in
        let mid := (2 * dl + 1) * P in
        if (twice_v <? mid) || ((twice_v =? mid) && Z.even dl) then (dl, k) else (dh, k)
      else if okl then (dl, k)
      else if okh then (dh, k)
      else shortest_from fuel' m e p (n + 1)
  end.

Fixpoint strip_zeros (fuel : nat) (d k : Z) : Z * Z :=
  match fuel with
  | O => (d, k)
  | S fuel' => if (d mod 10 =? 0) && (0 <? d) then strip_zeros fuel' (d / 10) (k + 1) else (d, k)
  end.

Definition shortest (m e : Z) : Z * Z :=
  let '(d, k) := shortest_from 17 m e (floor_log10 m e) 1 in
  strip_zeros 20 d k.

Definition zeros (n : Z) : string := str_mul "0"%string n.

Definition format_short (d k : Z) : string :=
  let s := str_int d in
  let len := String.length s in
  let nd := Z.of_nat len in
  let decpt := nd + k in
  if (decpt <=? -4) || (16 <? decpt) then
    let x := decpt - 1 in
    let frac := if 1 <? nd then ("." ++ substring 1 (len - 1) s)%string else EmptyString in
    let sign := if x <? 0 then "-"%string else "+"%string in
    let lead := if Z.abs x <? 10 then "0"%string else EmptyString in
    (substring 0 1 s ++ frac ++ "e" ++ sign ++ lead ++ str_int (Z.abs x))%string
  else if decpt <=? 0 then ("0." ++ zeros (- decpt) ++ s)%string
  else if nd <=? decpt then (s ++ zeros (decpt - nd) ++ ".0")%string
  else
    let ip := Z.to_nat decpt in
    (substring 0 ip s ++ "." ++ substring ip (len - ip) s)%string.

(** [str(x)] for a [float] (the same text as [repr(x)]). *)
Definition str_float (x : float) : string :=
  match Prim2SF x with
  | S754_nan => "nan"%string
  | S754_infinity s => if s then "-inf"%string else "inf"%string
  | S754_zero s => if s then "-0.0"%string else "0.0"%string
  | S754_finite s m e =>
      let '(d, k) := shortest (Z.pos m) e in
      ((if s then "-" else "") ++ format_short d k)%string
  end.

End Py.

Import Py.

Notation "x <- c ;; k" := (Py.bind c (fun x => k))
  (at level 61, c at next level, right associativity).

(** ** The outside world: [time.time()] and the [rich] live display *)

(** One row per block, as [Table.add_row] receives it. *)
Record Table := mkTable {
  columns : list (string * string);
  rows : list (string * string * string);
  caption : string
}.

(** [clock k] is what the [k]-th call of [time.time()] returns; [ticks]
    counts the calls made so far and [frames] lists the tables handed to
    [Live.update], oldest first. *)
Record World := mkWorld {
  clock : nat -> float;
  ticks : nat;
  frames : list Table
}.

Definition time_time (w : World) : float * World :=
  (clock w (ticks w), mkWorld (clock w) (S (ticks w)) (frames w)).

Definition Live_update (t : Table) (w : World) : World :=
  mkWorld (clock w) (ticks w) (frames w ++ [t]).

(** ** class Block *)

Module Block.

(** [previous_hash] is the integer 0 in the genesis block and a hash text
    in every other block. *)
Inductive value := Int (z : Z) | Str (s : string).

Definition str (v : value) : string :=
  match v with
  | Int z => str_int z
  | Str s => s
  end.

Record t := mk {
  index : Z;
  nonce : Z;
  previous_hash : value;
  timestamp : float
}.

(** [Block.__init__]: the only reading of the clock. *)
Definition init (index nonce : Z) (previous_hash : value) (w : World) : t * World :=
  let '(now, w') := time_time w in
  (mk index nonce previous_hash now, w').

(** [Block.hash] *)
Definition hash (self : t) : string :=
  SHA256.hexdigest
    (str_int (index self) ++ str_float (timestamp self)
       ++ str_int (nonce self) ++ str (previous_hash self))%string.

(** [Block.difficulty]: number of leading zeros in the hash *)
Definition difficulty (self : t) : Z :=
  Z.of_nat (String.length (hash self))
  - Z.of_nat (String.length (lstrip "0"%char (hash self))).

End Block.

(** ** class Blockchain *)

Module Blockchain.

Record t := mk {
  chain : list Block.t;
  target_seconds_per_block : Z
}.

(** [Blockchain.__init__] *)
Definition init (target_seconds_per_block : Z) (w : World) : t * World :=
  let '(genesis, w') := Block.init 0 0 (Block.Int 0) w in
  (mk [genesis] target_seconds_per_block, w').

(** [Blockchain.last_block] *)
Definition last_block (self : t) : result Block.t :=
  getitem (chain self) (-1).

(** [Blockchain.difficulty]: difficulty of the next block *)
Definition difficulty (self : t) : result Z :=
  if Z.of_nat (List.length (chain self)) <? 3 then Ok 1
  else
    last <- last_block self ;;
    second <- getitem (chain self) (-2) ;;
    third <- getitem (chain self) (-3) ;;
    let avg_time_to_mine :=
      (((Block.timestamp last - Block.timestamp second)
        + (Block.timestamp second - Block.timestamp third)) / 2)%float in
    fast <- mul_int_float (target_seconds_per_block self) 0.5 ;;
    if (avg_time_to_mine <? fast)%float then
      last' <- last_block self ;;
      Ok (Block.difficulty last' + 1)
    else
      slow <- mul_int_float (target_seconds_per_block self) 1.5 ;;
      if (slow <? avg_time_to_mine)%float then
        last' <- last_block self ;;
        Ok (Block.difficulty last' - 1)
      else
        last' <- last_block self ;;
        Ok (Block.difficulty last').

(** The average of the two most recent gaps, as [difficulty] computes it
    from the third-last, second-last and last block. *)
Definition avg_time_to_mine (third second last : Block.t) : float :=
  (((Block.timestamp last - Block.timestamp second)
    + (Block.timestamp second - Block.timestamp third)) / 2)%float.

(** [enumerate(self.__chain)] turned into rows, counting from [n]. *)
Fixpoint chain_rows (n : Z) (blocks : list Block.t) : list (string * string * string) :=
  match blocks with
  | [] => []
  | block :: rest =>
      (str_int n, str_int (Block.nonce block), Block.hash block) :: chain_rows (n + 1) rest
  end.

(** [Blockchain.to_table] *)
Definition to_table (self : t) (new_block : option Block.t) : result Table :=
  let cols := [("Block", "cyan"); ("Nonce", "magenta"); ("Hash", "green")]%string in
  let committed := chain_rows 0 (chain self) in
  let shown :=
    match new_block with
    | Some b =>
        (committed ++ [(str_int (Z.of_nat (List.length (chain self))),
                        str_int (Block.nonce b), Block.hash b)])%list
    | None => committed
    end in
  d <- difficulty self ;;
  Ok (mkTable cols shown ("Difficulty: " ++ str_int d)%string).

(** What a call leaves behind: a value, an exception, or a loop that
    has not finished within the attempts it was given. *)
Inductive outcome (A : Type) : Type :=
| Returned (a : A)
| Raised (e : exn)
| Searching.
Arguments Returned {A} a.
Arguments Raised {A} e.
Arguments Searching {A}.

(** The [while True] loop of [mine], cut after [attempts] candidates. *)
Fixpoint mine_loop (attempts : nat) (self : t) (prefix_str : string) (nonce : Z) (w : World)
  : outcome (string * t * World) :=
  match attempts with
  | O => Searching
  | S attempts' =>
      match last_block self with
      | Raise e => Raised e
      | Ok last =>
          let '(proposed_block, w1) :=
            Block.init (Z.of_nat (List.length (chain self))) nonce
                       (Block.Str (Block.hash last)) w in
          match to_table self (Some proposed_block) with
          | Raise e => Raised e
          | Ok table =>
              let w2 := Live_update table w1 in
              if String.prefix prefix_str (Block.hash proposed_block) then
                Returned (Block.hash proposed_block,
                          mk (chain self ++ [proposed_block]) (target_seconds_per_block self),
                          w2)
              else mine_loop attempts' self prefix_str (nonce + 1) w2
          end
      end
  end.

(** [Blockchain.mine] *)
Definition mine (attempts : nat) (self : t) (w : World) : outcome (string * t * World) :=
  match difficulty self with
  | Raise e => Raised e
  | Ok d => mine_loop attempts self (str_mul "0" d) 0 w
  end.

(** The states a run goes through: construction, then rounds of [mine]
    that return. *)
Inductive reachable : t -> World -> Prop :=
| reach_init target w :
    reachable (fst (init target w)) (snd (init target w))
| reach_mine attempts self w h self' w' :
    reachable self w ->
    mine attempts self w = Returned (h, self', w') ->
    reachable self' w'.

End Blockchain.

(** ** Notions used in the statements *)

(** The candidate of one attempt, the world after the attempt has been
    displayed, and the chain after the candidate is committed. *)
Definition candidate (self : Blockchain.t) (last : Block.t) (nonce : Z) (w : World) : Block.t :=
  Block.mk (Z.of_nat (List.length (Blockchain.chain self))) nonce
           (Block.Str (Block.hash last)) (clock w (ticks w)).

Definition after_attempt (table : Table) (w : World) : World :=
  mkWorld (clock w) (S (ticks w)) (frames w ++ [table]).

Definition commit (self : Blockchain.t) (b : Block.t) : Blockchain.t :=
  Blockchain.mk (Blockchain.chain self ++ [b]) (Blockchain.target_seconds_per_block self).

(** The chain discipline kept by construction and by every round. *)
Definition linked (blocks : list Block.t) : Prop :=
  (forall i b, nth_error blocks i = Some b -> Block.index b = Z.of_nat i) /\
  (forall i b b', nth_error blocks i = Some b -> nth_error blocks (S i) = Some b' ->
     Block.previous_hash b' = Block.Str (Block.hash b)).

(** One more round of [mine] on a state, when it returns at the first attempt. *)
Definition mine_once (s : Blockchain.t * World) : Blockchain.t * World :=
  match Blockchain.mine 1 (fst s) (snd s) with
  | Blockchain.Returned (_, self', w') => (self', w')
  | _ => s
  end.

Definition returned_hash (o : Blockchain.outcome (string * Blockchain.t * World)) : string :=
  match o with
  | Blockchain.Returned (h, _, _) => h
  | _ => EmptyString
  end.

(** ** A slow run: [Blockchain(target_seconds_per_block=10)] on a clock whose
    readings are 20 to 30 seconds apart. *)

Definition slow_clock (k : nat) : float :=
  nth k [1700000000; 1700000030.25; 1700000059.25; 1700000079.25]%float 1700000100%float.

Definition slow_world : World := mkWorld slow_clock 0 [].

Definition slow0 : Blockchain.t * World := Blockchain.init 10 slow_world.
Definition slow1 : Blockchain.t * World := mine_once slow0.
Definition slow2 : Blockchain.t * World := mine_once slow1.
Definition slow3 : Blockchain.t * World := mine_once slow2.

(** ** Two chains that differ in the second-last timestamp only

    The literals 0.1, 0.3 and 10.1 stand for the nearest binary64 values,
    as they do in Python. *)

#[local] Set Warnings "-inexact-float".
Definition near_third : Block.t := Block.mk 0 0 (Block.Int 0) 0.1.
Definition near_second : Block.t := Block.mk 1 0 (Block.Str (Block.hash near_third)) 0.1.
Definition near_second' : Block.t := Block.mk 1 0 (Block.Str (Block.hash near_third)) 0.3.
Definition near_last : Block.t := Block.mk 2 0 (Block.Str (Block.hash near_second)) 10.1.
#[local] Set Warnings "inexact-float".

(** Blocks with the timestamps 0, 1 (or 5) and 20. *)
Definition even_third : Block.t := Block.mk 0 0 (Block.Int 0) 0.
Definition even_second : Block.t := Block.mk 1 0 (Block.Str (Block.hash even_third)) 1.
Definition even_second' : Block.t := Block.mk 1 0 (Block.Str (Block.hash even_third)) 5.
Definition even_last : Block.t := Block.mk 2 0 (Block.Str (Block.hash even_second)) 20.

(** ** Further notions: texts, candidates, clocks and the program *)

Fixpoint all_chars (p : ascii -> bool) (s : string) : bool :=
  match s with
  | EmptyString => true
  | String c s' => p c && all_chars p s'
  end.

(** A lower-case hexadecimal digit. *)
Definition is_hex (c : ascii) : bool :=
  existsb (Ascii.eqb c) (list_ascii_of_string "0123456789abcdef").

(** A target too large for a float, on the slow clock: the first two
    rounds run at the bootstrap difficulty. *)
Definition huge0 : Blockchain.t * World := Blockchain.init (2 ^ 1024) slow_world.
Definition huge2 : Blockchain.t * World := mine_once (mine_once huge0).

(** The [j]-th candidate of a round that starts in world [w]: nonce [j],
    stamped with the [j]-th clock reading of the round. *)
Definition attempt (self : Blockchain.t) (last : Block.t) (w : World) (j : nat) : Block.t :=
  Block.mk (Z.of_nat (List.length (Blockchain.chain self))) (Z.of_nat j)
           (Block.Str (Block.hash last)) (clock w (ticks w + j)).

(** A clock that advances one second per reading. *)
Definition steady_clock (k : nat) : float :=
  nth k [1700000000; 1700000001; 1700000002; 1700000003; 1700000004; 1700000005;
         1700000006; 1700000007; 1700000008; 1700000009]%float 1700000010%float.

Definition steady0 : Blockchain.t * World := Blockchain.init 10 (mkWorld steady_clock 0 []).

Definition steady1 : Blockchain.t * World :=
  match Blockchain.mine 10 (fst steady0) (snd steady0) with
  | Blockchain.Returned (_, self', w') => (self', w')
  | _ => steady0
  end.

(** ** The program: [chain = Blockchain(10)], the first table shown by
    [Live], then [chain.mine(live)] for ever. [bounds] lists the rounds
    observed and how many attempts each is allowed; [Returned] holds
    [current_hash], the chain and the world after these rounds. *)

Fixpoint mine_rounds (bounds : list nat) (chain : Blockchain.t) (current_hash : string)
    (w : World) : Blockchain.outcome (string * Blockchain.t * World) :=
  match bounds with
  | [] => Blockchain.Returned (current_hash, chain, w)
  | attempts :: rest =>
      match Blockchain.mine attempts chain w with
      | Blockchain.Returned (h, chain', w') => mine_rounds rest chain' h w'
      | Blockchain.Raised e => Blockchain.Raised e
      | Blockchain.Searching => Blockchain.Searching
      end
  end.

Definition main (bounds : list nat) (w : World)
  : Blockchain.outcome (string * Blockchain.t * World) :=
  let '(chain, w1) := Blockchain.init 10 w in
  match Blockchain.last_block chain with
  | Raise e => Blockchain.Raised e
  | Ok last =>
      let current_hash := Block.hash last in
      match Blockchain.to_table chain None with
      | Raise e => Blockchain.Raised e
      | Ok table => mine_rounds bounds chain current_hash (Live_update table w1)
      end
  end.

(** The blocks of a chain carry clock readings taken in chain order
    between the readings numbered [lo] and [hi]. *)
Fixpoint stamped (clk : nat -> float) (lo : nat) (blocks : list Block.t) (hi : nat) : Prop :=
  match blocks with
  | [] => (lo <= hi)%nat
  | b :: rest =>
      exists t, (lo <= t)%nat /\ Block.timestamp b = clk t /\ stamped clk (S t) rest hi
  end.

(** * Properties *)

(** Proofs treat the digest as a black box; concrete runs evaluate it. *)
#[global] Opaque SHA256.hexdigest.

(** ** The embedded library functions on known values *)

Example sha256_constants :
  List.length SHA256.K = 64%nat /\
  firstn 2 SHA256.K = [0x428a2f98; 0x71374491] /\
  nth 63 SHA256.K 0 = 0xc67178f2 /\
  firstn 2 SHA256.H0 = [0x6a09e667; 0xbb67ae85] /\
  nth 7 SHA256.H0 0 = 0x5be0cd19.
Proof. repeat split. Qed.

Example sha256_abc :
  SHA256.hexdigest "abc" =
  "ba7816bf8f01cfea414140de5dae2223b00361a396177a9cb410ff61f20015ad"%string.
Proof. vm_compute. reflexivity. Qed.

Example sha256_two_blocks :
  SHA256.hexdigest "abcdbcdecdefdefgefghfghighijhijkijkljklmklmnlmnomnopnopq" =
  "248d6a61d20638b8e5c026930c3e6039a33ce45964ff2167f6ecedd419db06c1"%string.
Proof. vm_compute. reflexivity. Qed.

Example str_float_samples :
  map str_float [0; 20; 0.5; 1700000030.25; 10000000000000000; 0.0625; 0x1p-20]%float =
  ["0.0"; "20.0"; "0.5"; "1700000030.25"; "1e+16"; "0.0625"; "9.5367431640625e-07"]%string.
Proof. vm_compute. reflexivity. Qed.

Example str_int_samples :
  map str_int [0; 7; -12; 1234567890] = ["0"; "7"; "-12"; "1234567890"]%string.
Proof. vm_compute. reflexivity. Qed.

Example float_of_int_samples :
  float_of_int 10 = Ok 10%float /\
  float_of_int (2 ^ 53 + 1) = Ok 9007199254740992%float /\
  float_of_int (2 ^ 1024 - 2 ^ 970) = Raise OverflowError.
Proof. repeat split; vm_compute; reflexivity. Qed.

Example genesis_hash :
  Block.hash (Block.mk 0 0 (Block.Int 0) 1700000000) =
  SHA256.hexdigest "01700000000.000".
Proof. vm_compute. reflexivity. Qed.

(** ** Python indexing from the end of a list *)

Lemma getitem_from_end {A} (pre suf : list A) (k : nat) (a : A) :
  nth_error (rev suf) k = Some a ->
  getitem (pre ++ suf) (- 1 - Z.of_nat k) = Ok a.
Proof.
  intros Hk.
  assert (Hlt : (k < List.length suf)%nat).
  { rewrite <- length_rev. apply nth_error_Some. congruence. }
  rewrite nth_error_rev in Hk.
  destruct (Nat.ltb_spec k (List.length suf)) as [_ | Hge]; [| lia].
  unfold getitem. rewrite length_app.
  destruct (Z.ltb_spec (- 1 - Z.of_nat k) 0) as [_ | Hneg]; [| lia].
  set (j := - 1 - Z.of_nat k + Z.of_nat (List.length pre + List.length suf)).
  assert (Hj : j = Z.of_nat (List.length pre + (List.length suf - S k))) by (unfold j; lia).
  destruct (Z.ltb_spec j 0) as [Hlo | _]; [lia |].
  destruct (Z.leb_spec (Z.of_nat (List.length pre + List.length suf)) j) as [Hhi | _]; [lia |].
  simpl. rewrite Hj, Nat2Z.id, nth_error_app2 by lia.
  replace (List.length pre + (List.length suf - S k) - List.length pre)%nat
    with (List.length suf - S k)%nat by lia.
  rewrite Hk. reflexivity.
Qed.

Lemma last_three {A} (l : list A) :
  (3 <= List.length l)%nat ->
  exists pre c b a, l = pre ++ [c; b; a].
Proof.
  intros Hlen.
  destruct (rev l) as [| a [| b [| c r]]] eqn:Hrev;
    try (apply (f_equal (@List.length A)) in Hrev; rewrite length_rev in Hrev; simpl in Hrev; lia).
  exists (rev r), c, b, a.
  rewrite <- (rev_involutive l), Hrev. simpl.
  repeat rewrite <- app_assoc. reflexivity.
Qed.

(** ** The retarget rule on the last three blocks *)

Lemma difficulty_last_three pre third second last target :
  Blockchain.difficulty (Blockchain.mk (pre ++ [third; second; last]) target) =
  (fast <- mul_int_float target 0.5 ;;
   if (Blockchain.avg_time_to_mine third second last <? fast)%float then
     Ok (Block.difficulty last + 1)
   else
     slow <- mul_int_float target 1.5 ;;
     if (slow <? Blockchain.avg_time_to_mine third second last)%float then
       Ok (Block.difficulty last - 1)
     else Ok (Block.difficulty last)).
Proof.
  unfold Blockchain.difficulty, Blockchain.last_block. cbn [Blockchain.chain Blockchain.target_seconds_per_block].
  rewrite length_app. cbn [List.length].
  destruct (Z.ltb_spec (Z.of_nat (List.length pre + 3)) 3) as [Hlt | _]; [lia |].
  pose proof (getitem_from_end pre [third; second; last] 0 last eq_refl) as H1.
  pose proof (getitem_from_end pre [third; second; last] 1 second eq_refl) as H2.
  pose proof (getitem_from_end pre [third; second; last] 2 third eq_refl) as H3.
  change (- 1 - Z.of_nat 0) with (- 1) in H1.
  change (- 1 - Z.of_nat 1) with (- 2) in H2.
  change (- 1 - Z.of_nat 2) with (- 3) in H3.
  rewrite H1, H2, H3.
  cbn [bind]. fold (Blockchain.avg_time_to_mine third second last).
  destruct (mul_int_float target 0.5) as [fast | e]; cbn [bind]; [| reflexivity].
  destruct (Blockchain.avg_time_to_mine third second last <? fast)%float; [reflexivity |].
  destruct (mul_int_float target 1.5) as [slow | e]; cbn [bind]; [| reflexivity].
  destruct (slow <? Blockchain.avg_time_to_mine third second last)%float; reflexivity.
Qed.

Lemma getitem_last_inv {A} (l : list A) (a : A) :
  getitem l (- 1) = Ok a -> exists pre, l = pre ++ [a].
Proof.
  intros H.
  destruct (exists_last (l := l)) as (pre & x & ->).
  - intros ->. discriminate H.
  - pose proof (getitem_from_end pre [x] 0 x eq_refl) as Hx.
    change (- 1 - Z.of_nat 0) with (- 1) in Hx.
    exists pre. congruence.
Qed.

(** ** Leading zeros and the required prefix *)

Lemma lstrip_length c s :
  (String.length (lstrip c s) <= String.length s)%nat.
Proof.
  induction s as [| a s IH]; simpl; [lia |].
  destruct (Ascii.eqb a c); simpl; lia.
Qed.

Lemma Block_difficulty_nonneg b : 0 <= Block.difficulty b.
Proof.
  unfold Block.difficulty.
  pose proof (lstrip_length "0"%char (Block.hash b)). lia.
Qed.

Lemma str_repeat_zero_length n :
  String.length (str_repeat "0" n) = n.
Proof. induction n; simpl; congruence. Qed.

Lemma prefix_zeros_leading n : forall s,
  String.prefix (str_repeat "0" n) s = true ->
  (n + String.length (lstrip "0"%char s) <= String.length s)%nat.
Proof.
  induction n as [| n IH]; intros s H.
  - simpl. apply lstrip_length.
  - change (str_repeat "0" (S n)) with (String "0"%char (str_repeat "0" n)) in H.
    destruct s as [| a s]; [discriminate |].
    cbn [String.prefix] in H.
    destruct (ascii_dec "0"%char a) as [Ha | Ha]; [| discriminate].
    subst a. specialize (IH s H).
    change (lstrip "0"%char (String "0"%char s)) with (lstrip "0"%char s).
    cbn [String.length]. lia.
Qed.

Lemma str_mul_nonpos s d : d <= 0 -> str_mul s d = EmptyString.
Proof.
  intros Hd. unfold str_mul.
  replace (Z.to_nat d) with 0%nat by lia. reflexivity.
Qed.

Lemma prefix_empty s : String.prefix EmptyString s = true.
Proof. destruct s; reflexivity. Qed.

(** ** One round of mining *)

Lemma mine_loop_step attempts self prefix_str nonce w :
  Blockchain.mine_loop (S attempts) self prefix_str nonce w =
  match Blockchain.last_block self with
  | Raise e => Blockchain.Raised e
  | Ok last =>
      match Blockchain.to_table self (Some (candidate self last nonce w)) with
      | Raise e => Blockchain.Raised e
      | Ok table =>
          if String.prefix prefix_str (Block.hash (candidate self last nonce w)) then
            Blockchain.Returned (Block.hash (candidate self last nonce w),
                                 commit self (candidate self last nonce w),
                                 after_attempt table w)
          else Blockchain.mine_loop attempts self prefix_str (nonce + 1) (after_attempt table w)
      end
  end.
Proof. reflexivity. Qed.

Lemma mine_loop_returned attempts : forall self prefix_str nonce w h self' w',
  Blockchain.mine_loop attempts self prefix_str nonce w = Blockchain.Returned (h, self', w') ->
  exists last b,
    Blockchain.last_block self = Ok last /\
    self' = commit self b /\
    h = Block.hash b /\
    String.prefix prefix_str (Block.hash b) = true /\
    Block.index b = Z.of_nat (List.length (Blockchain.chain self)) /\
    Block.previous_hash b = Block.Str (Block.hash last) /\
    nonce <= Block.nonce b.
Proof.
  induction attempts as [| attempts IH]; intros self prefix_str nonce w h self' w' H.
  - discriminate H.
  - rewrite mine_loop_step in H.
    destruct (Blockchain.last_block self) as [last | e] eqn:Hlast; [| discriminate H].
    destruct (Blockchain.to_table self _) as [table | e]; [| discriminate H].
    destruct (String.prefix prefix_str (Block.hash (candidate self last nonce w))) eqn:Hpre.
    + injection H as Hh Hs Hw. subst h self'.
      exists last, (candidate self last nonce w).
      repeat split; auto. unfold candidate; cbn [Block.nonce]. lia.
    + apply IH in H. destruct H as (last' & b & Hl & Hs & Hh & Hp & Hi & Hprev & Hn).
      rewrite Hlast in Hl. injection Hl as <-.
      exists last, b. repeat split; auto. lia.
Qed.

Lemma mine_returned attempts self w h self' w' :
  Blockchain.mine attempts self w = Blockchain.Returned (h, self', w') ->
  exists d last b,
    Blockchain.difficulty self = Ok d /\
    Blockchain.last_block self = Ok last /\
    self' = commit self b /\
    h = Block.hash b /\
    String.prefix (str_mul "0" d) (Block.hash b) = true /\
    Block.index b = Z.of_nat (List.length (Blockchain.chain self)) /\
    Block.previous_hash b = Block.Str (Block.hash last).
Proof.
  unfold Blockchain.mine. intros H.
  destruct (Blockchain.difficulty self) as [d | e]; [| discriminate H].
  apply mine_loop_returned in H.
  destruct H as (last & b & Hl & Hs & Hh & Hp & Hi & Hprev & _).
  exists d, last, b. repeat split; assumption.
Qed.

(** A required difficulty of zero or less: the first candidate is committed. *)
Lemma mine_nonpositive self d :
  Blockchain.difficulty self = Ok d -> d <= 0 ->
  exists last,
    Blockchain.last_block self = Ok last /\
    forall attempts w, exists table,
      Blockchain.to_table self (Some (candidate self last 0 w)) = Ok table /\
      Blockchain.mine (S attempts) self w =
      Blockchain.Returned (Block.hash (candidate self last 0 w),
                           commit self (candidate self last 0 w),
                           after_attempt table w).
Proof.
  intros Hd Hle.
  assert (Hlen : (3 <= List.length (Blockchain.chain self))%nat).
  { unfold Blockchain.difficulty in Hd.
    destruct (Z.ltb_spec (Z.of_nat (List.length (Blockchain.chain self))) 3) as [Hlt | Hge].
    - injection Hd as <-. lia.
    - lia. }
  destruct (last_three _ Hlen) as (pre & third & second & last & Hchain).
  exists last.
  assert (Hlast : Blockchain.last_block self = Ok last).
  { unfold Blockchain.last_block. rewrite Hchain.
    apply (getitem_from_end pre [third; second; last] 0 last eq_refl). }
  split; [exact Hlast |].
  intros attempts w.
  destruct (Blockchain.to_table self (Some (candidate self last 0 w))) as [table | e] eqn:Htab.
  - exists table. split; [reflexivity |].
    unfold Blockchain.mine. rewrite Hd, mine_loop_step, Hlast, Htab.
    rewrite (str_mul_nonpos _ d Hle), prefix_empty. reflexivity.
  - unfold Blockchain.to_table in Htab. rewrite Hd in Htab. discriminate Htab.
Qed.

(** ** Reachable states *)

Lemma mine_once_reachable s :
  Blockchain.reachable (fst s) (snd s) ->
  Blockchain.reachable (fst (mine_once s)) (snd (mine_once s)).
Proof.
  intros Hs. unfold mine_once.
  destruct (Blockchain.mine 1 (fst s) (snd s)) as [[[h self'] w'] | e |] eqn:Hm; try exact Hs.
  exact (Blockchain.reach_mine 1 (fst s) (snd s) h self' w' Hs Hm).
Qed.

Lemma slow3_reachable : Blockchain.reachable (fst slow3) (snd slow3).
Proof.
  unfold slow3, slow2, slow1, slow0.
  do 3 apply mine_once_reachable.
  apply Blockchain.reach_init.
Qed.

Lemma slow2_reachable : Blockchain.reachable (fst slow2) (snd slow2).
Proof.
  unfold slow2, slow1, slow0.
  do 2 apply mine_once_reachable.
  apply Blockchain.reach_init.
Qed.

(** The slow run, as [hashlib] gives it: every block is found at nonce 0. *)
Example slow3_chain :
  map (fun b => (Block.index b, Block.nonce b, Block.hash b)) (Blockchain.chain (fst slow3)) =
  [ (0, 0, "54e3a6c8a2337b233df108078665c0f5da7056e13a37a73888ecceed260bb017");
    (1, 0, "0902c8d851580c85a2b72a3350a2976dda7030cba60faaa649fa9d7e79cd1517");
    (2, 0, "0801fe155bb4dd0372a8bc59104dd196e9916dd7a3fb2cd48477d944dbe5854f");
    (3, 0, "c3e39dc2fdbe061bb1315e382a2a44faa3d181cb80a0944dad220507ca9819e2") ]%string.
Proof. vm_compute. reflexivity. Qed.

Example slow_difficulties :
  map (fun s => Blockchain.difficulty (fst s)) [slow0; slow1; slow2; slow3] =
  [Ok 1; Ok 1; Ok 0; Ok (-1)].
Proof. vm_compute. reflexivity. Qed.

Lemma linked_snoc blocks last b :
  linked (blocks ++ [last]) ->
  Block.index b = Z.of_nat (List.length (blocks ++ [last])) ->
  Block.previous_hash b = Block.Str (Block.hash last) ->
  linked ((blocks ++ [last]) ++ [b]).
Proof.
  intros [Hidx Hprev] Hi Hp. split.
  - intros i x Hx.
    destruct (Nat.lt_ge_cases i (List.length (blocks ++ [last]))) as [Hlt | Hge].
    + rewrite nth_error_app1 in Hx by assumption. eauto.
    + rewrite nth_error_app2 in Hx by assumption.
      destruct (i - List.length (blocks ++ [last]))%nat as [| k] eqn:Hk.
      * injection Hx as <-. rewrite Hi. f_equal. lia.
      * destruct k; discriminate Hx.
  - intros i x x' Hx Hx'.
    assert (Hlen : (S i < List.length ((blocks ++ [last]) ++ [b]))%nat)
      by (apply nth_error_Some; congruence).
    rewrite (length_app (blocks ++ [last])) in Hlen. cbn [List.length] in Hlen.
    rewrite nth_error_app1 in Hx by lia.
    destruct (Nat.lt_ge_cases (S i) (List.length (blocks ++ [last]))) as [Hlt | Hge].
    + rewrite nth_error_app1 in Hx' by assumption. eauto.
    + rewrite nth_error_app2 in Hx' by assumption.
      replace (S i - List.length (blocks ++ [last]))%nat with 0%nat in Hx' by lia.
      injection Hx' as <-.
      assert (Hi' : i = List.length blocks) by (rewrite length_app in *; cbn [List.length] in *; lia).
      subst i. rewrite nth_error_app2 in Hx by lia.
      rewrite Nat.sub_diag in Hx. injection Hx as <-. exact Hp.
Qed.

Lemma reachable_linked self w :
  Blockchain.reachable self w ->
  linked (Blockchain.chain self) /\
  exists genesis rest,
    Blockchain.chain self = genesis :: rest /\
    Block.index genesis = 0 /\ Block.nonce genesis = 0.
Proof.
  induction 1 as [target w | attempts self w h self' w' Hr IH Hm].
  - cbn. split.
    + split.
      * intros [| [| i]] b Hb; try discriminate Hb. injection Hb as <-. reflexivity.
      * intros [| i] b b' _ Hb'; discriminate Hb'.
    + eexists _, []. repeat split.
  - destruct IH as [Hlinked (genesis & rest & Hchain & Hg)].
    apply mine_returned in Hm.
    destruct Hm as (d & last & b & _ & Hlast & -> & _ & _ & Hi & Hp).
    apply getitem_last_inv in Hlast. destruct Hlast as [pre Hpre].
    unfold commit; cbn [Blockchain.chain]. split.
    + rewrite Hpre in *. apply linked_snoc; assumption.
    + exists genesis, (rest ++ [b]). rewrite Hchain. split; [reflexivity | exact Hg].
Qed.

(** * The claims *)

(** C1 (as amended). [required_difficulty()] is not bounded below by 0:
    the minus-one branch has no floor. For every chain state, reachable
    or not, [difficulty] either returns an integer that is at least -1, or
    raises [OverflowError] because at least three blocks are committed and
    the target is an [int] too large to be converted to a [float]. *)
Theorem difficulty_at_least_minus_one (self : Blockchain.t) :
  (exists d, Blockchain.difficulty self = Ok d /\ -1 <= d) \/
  (Blockchain.difficulty self = Raise OverflowError /\
   float_of_int (Blockchain.target_seconds_per_block self) = Raise OverflowError /\
   (3 <= List.length (Blockchain.chain self))%nat).
Proof.
  destruct (Nat.lt_ge_cases (List.length (Blockchain.chain self)) 3) as [Hlt | Hge].
  - left. exists 1. split; [| lia].
    unfold Blockchain.difficulty.
    destruct (Z.ltb_spec (Z.of_nat (List.length (Blockchain.chain self))) 3); [reflexivity | lia].
  - destruct (last_three _ Hge) as (pre & third & second & last & Hchain).
    destruct self as [blocks target]. cbn [Blockchain.chain Blockchain.target_seconds_per_block] in *.
    subst blocks. rewrite difficulty_last_three.
    pose proof (Block_difficulty_nonneg last) as Hz.
    unfold mul_int_float.
    destruct (float_of_int target) as [tf | []] eqn:Hconv; cbn [bind].
    + left.
      destruct (Blockchain.avg_time_to_mine third second last <? tf * 0.5)%float;
        [eexists; split; [reflexivity | lia] |].
      destruct (tf * 1.5 <? Blockchain.avg_time_to_mine third second last)%float;
        eexists; split; try reflexivity; lia.
    + right. repeat split. rewrite length_app. cbn [List.length]. lia.
    + exfalso. unfold float_of_int in Hconv.
      destruct (binary_normalize prec emax target 0 false); discriminate Hconv.
Qed.

(** C1 (as stated) fails: with a target of 10 seconds and clock readings
    20 to 30 seconds apart, the state after three rounds of [mine] has a
    required difficulty of -1. *)
Lemma difficulty_can_be_negative :
  exists self w, Blockchain.reachable self w /\ Blockchain.difficulty self = Ok (-1).
Proof.
  exists (fst slow3), (snd slow3). split.
  - exact slow3_reachable.
  - vm_compute. reflexivity.
Qed.

(** C2 (as amended). On a chain of at least three blocks whose [int]
    target converts to a float, so that [0.5 * target] and
    [1.5 * target] exist, with [avg] the average of the last two gaps as
    the code computes it: the required difficulty is the last block's
    leading-zero count plus one if [avg < 0.5 * target], else minus one
    if [avg > 1.5 * target], and unchanged otherwise. *)
Theorem difficulty_retarget (self : Blockchain.t) (fast slow : float) :
  (3 <= List.length (Blockchain.chain self))%nat ->
  mul_int_float (Blockchain.target_seconds_per_block self) 0.5 = Ok fast ->
  mul_int_float (Blockchain.target_seconds_per_block self) 1.5 = Ok slow ->
  exists pre third second last,
    Blockchain.chain self = pre ++ [third; second; last] /\
    let avg := Blockchain.avg_time_to_mine third second last in
    ((avg <? fast)%float = true ->
       Blockchain.difficulty self = Ok (Block.difficulty last + 1)) /\
    ((avg <? fast)%float = false -> (slow <? avg)%float = true ->
       Blockchain.difficulty self = Ok (Block.difficulty last - 1)) /\
    ((avg <? fast)%float = false -> (slow <? avg)%float = false ->
       Blockchain.difficulty self = Ok (Block.difficulty last)).
Proof.
  intros Hlen Hfast Hslow.
  destruct (last_three _ Hlen) as (pre & third & second & last & Hchain).
  exists pre, third, second, last. split; [exact Hchain |].
  destruct self as [blocks target]. cbn [Blockchain.chain Blockchain.target_seconds_per_block] in *.
  subst blocks. rewrite difficulty_last_three, Hfast, Hslow. cbn [bind].
  repeat split; intros; repeat
    match goal with
    | H : ?c = _ |- context [if ?c then _ else _] => rewrite H
    end; reflexivity.
Qed.

Lemma difficulty_retarget_witness :
  exists pre third second last,
    Blockchain.chain (fst slow2) = pre ++ [third; second; last] /\
    let avg := Blockchain.avg_time_to_mine third second last in
    ((avg <? 5)%float = true ->
       Blockchain.difficulty (fst slow2) = Ok (Block.difficulty last + 1)) /\
    ((avg <? 5)%float = false -> (15 <? avg)%float = true ->
       Blockchain.difficulty (fst slow2) = Ok (Block.difficulty last - 1)) /\
    ((avg <? 5)%float = false -> (15 <? avg)%float = false ->
       Blockchain.difficulty (fst slow2) = Ok (Block.difficulty last)).
Proof.
  apply (difficulty_retarget (fst slow2) 5 15).
  - vm_compute. lia.
  - vm_compute. reflexivity.
  - vm_compute. reflexivity.
Defined.

(** C2 (as stated) fails: not every chain of at least three blocks has a
    required difficulty. With a target of [2 ^ 1024], which no float
    holds, the state after two rounds of [mine] on the slow clock is
    reachable, has three blocks, and [difficulty] raises [OverflowError]
    there instead of returning any of the three values. *)
Lemma retarget_undefined_for_huge_target :
  Blockchain.reachable (fst huge2) (snd huge2) /\
  List.length (Blockchain.chain (fst huge2)) = 3%nat /\
  Blockchain.difficulty (fst huge2) = Raise OverflowError.
Proof.
  split; [| split].
  - unfold huge2, huge0. do 2 apply mine_once_reachable. apply Blockchain.reach_init.
  - vm_compute. reflexivity.
  - vm_compute. reflexivity.
Qed.

(** C3. The block that [mine] appends, and whose hash it returns, has at
    least as many leading zeros as the prefix built from the required
    difficulty at the start of the round is long. *)
Theorem mined_block_meets_prefix attempts self w h self' w' :
  Blockchain.mine attempts self w = Blockchain.Returned (h, self', w') ->
  exists d b,
    Blockchain.difficulty self = Ok d /\
    Blockchain.chain self' = Blockchain.chain self ++ [b] /\
    h = Block.hash b /\
    Z.of_nat (String.length (str_mul "0" d)) <= Block.difficulty b /\
    d <= Block.difficulty b.
Proof.
  intros Hm. apply mine_returned in Hm.
  destruct Hm as (d & last & b & Hd & _ & -> & -> & Hp & _).
  exists d, b. repeat split; try assumption.
  - unfold str_mul in *. apply prefix_zeros_leading in Hp.
    rewrite str_repeat_zero_length. unfold Block.difficulty. lia.
  - unfold str_mul in Hp. apply prefix_zeros_leading in Hp.
    unfold Block.difficulty. lia.
Qed.

Lemma mined_block_meets_prefix_witness :
  exists d b,
    Blockchain.difficulty (fst slow0) = Ok d /\
    Blockchain.chain (fst slow1) = Blockchain.chain (fst slow0) ++ [b] /\
    returned_hash (Blockchain.mine 1 (fst slow0) (snd slow0)) = Block.hash b /\
    Z.of_nat (String.length (str_mul "0" d)) <= Block.difficulty b /\
    d <= Block.difficulty b.
Proof.
  apply (mined_block_meets_prefix 1 (fst slow0) (snd slow0) _ (fst slow1) (snd slow1)).
  vm_compute. reflexivity.
Defined.

(** C4. Every reachable chain is non-empty, starts with a block of index 0
    and nonce 0, numbers its blocks by position, links every block to the
    hash of the one before it, and is changed by a round of [mine] only
    by one block appended at its end. *)
Theorem chain_invariant self w :
  Blockchain.reachable self w ->
  Blockchain.chain self <> [] /\
  (exists genesis rest,
     Blockchain.chain self = genesis :: rest /\
     Block.index genesis = 0 /\ Block.nonce genesis = 0) /\
  (forall i b, nth_error (Blockchain.chain self) i = Some b -> Block.index b = Z.of_nat i) /\
  (forall i b b',
     nth_error (Blockchain.chain self) i = Some b ->
     nth_error (Blockchain.chain self) (S i) = Some b' ->
     Block.previous_hash b' = Block.Str (Block.hash b)) /\
  (forall attempts h self' w',
     Blockchain.mine attempts self w = Blockchain.Returned (h, self', w') ->
     exists b,
       Blockchain.chain self' = Blockchain.chain self ++ [b] /\
       Blockchain.target_seconds_per_block self' = Blockchain.target_seconds_per_block self).
Proof.
  intros Hr.
  destruct (reachable_linked self w Hr) as [[Hidx Hprev] (genesis & rest & Hchain & Hg0 & Hn0)].
  split; [rewrite Hchain; discriminate |].
  split; [exists genesis, rest; auto |].
  split; [exact Hidx |].
  split; [exact Hprev |].
  intros attempts h self' w' Hm. apply mine_returned in Hm.
  destruct Hm as (d & last & b & _ & _ & -> & _).
  exists b. split; reflexivity.
Qed.

Lemma chain_invariant_witness :
  Blockchain.chain (fst slow3) <> [] /\
  (exists genesis rest,
     Blockchain.chain (fst slow3) = genesis :: rest /\
     Block.index genesis = 0 /\ Block.nonce genesis = 0) /\
  (forall i b, nth_error (Blockchain.chain (fst slow3)) i = Some b -> Block.index b = Z.of_nat i) /\
  (forall i b b',
     nth_error (Blockchain.chain (fst slow3)) i = Some b ->
     nth_error (Blockchain.chain (fst slow3)) (S i) = Some b' ->
     Block.previous_hash b' = Block.Str (Block.hash b)) /\
  (forall attempts h self' w',
     Blockchain.mine attempts (fst slow3) (snd slow3) = Blockchain.Returned (h, self', w') ->
     exists b,
       Blockchain.chain self' = Blockchain.chain (fst slow3) ++ [b] /\
       Blockchain.target_seconds_per_block self' = Blockchain.target_seconds_per_block (fst slow3)).
Proof.
  exact (chain_invariant (fst slow3) (snd slow3) slow3_reachable).
Defined.

(** C5. With fewer than three blocks committed the required difficulty is
    exactly 1, whatever the target is. *)
Theorem difficulty_bootstrap (self : Blockchain.t) :
  (List.length (Blockchain.chain self) < 3)%nat ->
  Blockchain.difficulty self = Ok 1.
Proof.
  intros Hlt. unfold Blockchain.difficulty.
  destruct (Z.ltb_spec (Z.of_nat (List.length (Blockchain.chain self))) 3); [reflexivity | lia].
Qed.

Lemma difficulty_bootstrap_witness :
  (List.length (Blockchain.chain (fst slow1)) < 3)%nat /\
  Blockchain.difficulty (fst slow1) = Ok 1.
Proof.
  assert (H : (List.length (Blockchain.chain (fst slow1)) < 3)%nat) by (vm_compute; lia).
  split; [exact H | exact (difficulty_bootstrap (fst slow1) H)].
Defined.

(** C6. When the required difficulty is 0, [mine] returns at its first
    attempt, however many attempts it is allowed: one candidate is built
    (one reading of the clock), the display is updated exactly once, and
    exactly one block, with nonce 0, is appended. *)
Theorem zero_difficulty_first_attempt attempts self w :
  Blockchain.difficulty self = Ok 0 ->
  exists b table h self' w',
    Blockchain.mine (S attempts) self w = Blockchain.Returned (h, self', w') /\
    h = Block.hash b /\
    Blockchain.chain self' = Blockchain.chain self ++ [b] /\
    Block.nonce b = 0 /\
    frames w' = frames w ++ [table] /\
    ticks w' = S (ticks w).
Proof.
  intros Hd.
  destruct (mine_nonpositive self 0 Hd (Z.le_refl 0)) as (last & _ & Hmine).
  destruct (Hmine attempts w) as (table & _ & Hm).
  exists (candidate self last 0 w), table.
  do 3 eexists. split; [exact Hm |]. repeat split.
Qed.

Lemma zero_difficulty_first_attempt_witness :
  Blockchain.difficulty (fst slow2) = Ok 0 /\
  exists b table h self' w',
    Blockchain.mine 7 (fst slow2) (snd slow2) = Blockchain.Returned (h, self', w') /\
    h = Block.hash b /\
    Blockchain.chain self' = Blockchain.chain (fst slow2) ++ [b] /\
    Block.nonce b = 0 /\
    frames w' = frames (snd slow2) ++ [table] /\
    ticks w' = S (ticks (snd slow2)).
Proof.
  assert (H : Blockchain.difficulty (fst slow2) = Ok 0) by (vm_compute; reflexivity).
  split; [exact H | exact (zero_difficulty_first_attempt 6 (fst slow2) (snd slow2) H)].
Defined.

(** C7. The hash of a block is a function of its four stored fields
    alone: blocks that agree on index, timestamp, nonce and previous hash
    have the same hash and the same leading-zero count. The timestamp is
    the one clock reading made at construction, and a round of [mine]
    leaves every committed block, hence its hash, as it was. *)
Theorem hash_deterministic :
  (forall b b' : Block.t,
     Block.index b = Block.index b' ->
     Block.timestamp b = Block.timestamp b' ->
     Block.nonce b = Block.nonce b' ->
     Block.previous_hash b = Block.previous_hash b' ->
     Block.hash b = Block.hash b' /\ Block.difficulty b = Block.difficulty b') /\
  (forall index nonce previous_hash w,
     Block.timestamp (fst (Block.init index nonce previous_hash w)) = clock w (ticks w) /\
     ticks (snd (Block.init index nonce previous_hash w)) = S (ticks w)) /\
  (forall attempts self w h self' w' i b,
     Blockchain.mine attempts self w = Blockchain.Returned (h, self', w') ->
     nth_error (Blockchain.chain self) i = Some b ->
     nth_error (Blockchain.chain self') i = Some b).
Proof.
  repeat split.
  - destruct b, b'; cbn in *; congruence.
  - destruct b, b'; cbn in *; congruence.
  - intros attempts self w h self' w' i b Hm Hb.
    apply mine_returned in Hm. destruct Hm as (d & last & c & _ & _ & -> & _).
    unfold commit; cbn [Blockchain.chain].
    rewrite nth_error_app1; [exact Hb |]. apply nth_error_Some. congruence.
Qed.

Lemma hash_deterministic_witness :
  Block.hash (fst (Block.init 1 0 (Block.Str "54e3") (mkWorld slow_clock 1 []))) =
  Block.hash (Block.mk 1 0 (Block.Str "54e3") 1700000030.25) /\
  Block.difficulty (fst (Block.init 1 0 (Block.Str "54e3") (mkWorld slow_clock 1 []))) =
  Block.difficulty (Block.mk 1 0 (Block.Str "54e3") 1700000030.25).
Proof.
  apply (proj1 hash_deterministic); reflexivity.
Defined.

(** C8. Three committed blocks with timestamps 0, 1 and 20 and a target of
    10 seconds: the required difficulty is the last block's leading-zero
    count. *)
Theorem hold_steady_0_1_20 (b1 b2 b3 : Block.t) :
  Block.timestamp b1 = 0%float ->
  Block.timestamp b2 = 1%float ->
  Block.timestamp b3 = 20%float ->
  Blockchain.difficulty (Blockchain.mk [b1; b2; b3] 10) = Ok (Block.difficulty b3).
Proof.
  intros H1 H2 H3.
  change [b1; b2; b3] with ([] ++ [b1; b2; b3]).
  rewrite (difficulty_last_three [] b1 b2 b3 10).
  unfold Blockchain.avg_time_to_mine. rewrite H1, H2, H3.
  replace (mul_int_float 10 0.5) with (Ok 5%float) by (vm_compute; reflexivity).
  replace (mul_int_float 10 1.5) with (Ok 15%float) by (vm_compute; reflexivity).
  cbn [bind].
  replace ((20 - 1 + (1 - 0)) / 2)%float with 10%float by reflexivity.
  replace (10 <? 5)%float with false by reflexivity.
  replace (15 <? 10)%float with false by reflexivity.
  reflexivity.
Qed.

Lemma hold_steady_0_1_20_witness :
  Blockchain.difficulty (Blockchain.mk [even_third; even_second; even_last] 10) =
  Ok (Block.difficulty even_last).
Proof.
  apply hold_steady_0_1_20; reflexivity.
Defined.

(** C9. When the required difficulty is 0 or negative, [mine] neither
    raises nor keeps searching: the prefix ['0' * difficulty] is the
    empty string, every hash starts with it, and the first candidate is
    committed, that is the block with index [len(chain)], nonce 0, the
    hash of the last block as previous hash and the first clock reading
    of the round as timestamp; its hash is returned, the clock has been
    read once and the display updated once, with the table that shows
    this candidate. The round is the one a difficulty of 0 gives. *)
Theorem nonpositive_difficulty_like_zero attempts self w d :
  Blockchain.difficulty self = Ok d -> d <= 0 ->
  str_mul "0" d = EmptyString /\
  (forall h, String.prefix (str_mul "0" d) h = true) /\
  (exists last table,
     Blockchain.last_block self = Ok last /\
     let first :=
       Block.mk (Z.of_nat (List.length (Blockchain.chain self))) 0
                (Block.Str (Block.hash last)) (clock w (ticks w)) in
     Blockchain.to_table self (Some first) = Ok table /\
     Blockchain.mine (S attempts) self w =
       Blockchain.Returned
         (Block.hash first,
          Blockchain.mk (Blockchain.chain self ++ [first])
                        (Blockchain.target_seconds_per_block self),
          mkWorld (clock w) (S (ticks w)) (frames w ++ [table]))) /\
  Blockchain.mine_loop (S attempts) self (str_mul "0" d) 0 w =
  Blockchain.mine_loop (S attempts) self (str_mul "0" 0) 0 w.
Proof.
  intros Hd Hle.
  pose proof (str_mul_nonpos "0" d Hle) as Hempty.
  split; [exact Hempty |].
  split; [intros h; rewrite Hempty; apply prefix_empty |].
  split.
  - destruct (mine_nonpositive self d Hd Hle) as (last & Hlast & Hmine).
    destruct (Hmine attempts w) as (table & Htab & Hm).
    exists last, table. split; [exact Hlast |]. split; [exact Htab | exact Hm].
  - rewrite Hempty. reflexivity.
Qed.

Lemma nonpositive_difficulty_like_zero_witness :
  Blockchain.difficulty (fst slow3) = Ok (-1) /\
  str_mul "0" (-1) = EmptyString /\
  (forall h, String.prefix (str_mul "0" (-1)) h = true) /\
  (exists last table,
     Blockchain.last_block (fst slow3) = Ok last /\
     let first :=
       Block.mk (Z.of_nat (List.length (Blockchain.chain (fst slow3)))) 0
                (Block.Str (Block.hash last)) (clock (snd slow3) (ticks (snd slow3))) in
     Blockchain.to_table (fst slow3) (Some first) = Ok table /\
     Blockchain.mine 3 (fst slow3) (snd slow3) =
       Blockchain.Returned
         (Block.hash first,
          Blockchain.mk (Blockchain.chain (fst slow3) ++ [first])
                        (Blockchain.target_seconds_per_block (fst slow3)),
          mkWorld (clock (snd slow3)) (S (ticks (snd slow3))) (frames (snd slow3) ++ [table]))) /\
  Blockchain.mine_loop 3 (fst slow3) (str_mul "0" (-1)) 0 (snd slow3) =
  Blockchain.mine_loop 3 (fst slow3) (str_mul "0" 0) 0 (snd slow3).
Proof.
  assert (H : Blockchain.difficulty (fst slow3) = Ok (-1)) by (vm_compute; reflexivity).
  split; [exact H |].
  apply (nonpositive_difficulty_like_zero 2 (fst slow3) (snd slow3) (-1) H).
  lia.
Defined.

(** C10 (as amended). The required difficulty depends on the second-last
    timestamp only through the rounded sum of the two gaps: two chains
    of at least three blocks with the same target, the same last block
    and the same third-last timestamp have the same required difficulty
    whenever, in each of them, the binary64 sum [(t1 - t2) + (t2 - t3)]
    equals the binary64 difference [t1 - t3]. *)
Theorem difficulty_ignores_second_timestamp
    (pre pre' : list Block.t) (third third' second second' last : Block.t) (target : Z) :
  Block.timestamp third = Block.timestamp third' ->
  ((Block.timestamp last - Block.timestamp second)
   + (Block.timestamp second - Block.timestamp third))%float
  = (Block.timestamp last - Block.timestamp third)%float ->
  ((Block.timestamp last - Block.timestamp second')
   + (Block.timestamp second' - Block.timestamp third'))%float
  = (Block.timestamp last - Block.timestamp third')%float ->
  Blockchain.difficulty (Blockchain.mk (pre ++ [third; second; last]) target) =
  Blockchain.difficulty (Blockchain.mk (pre' ++ [third'; second'; last]) target).
Proof.
  intros Ht Hsum Hsum'.
  rewrite !difficulty_last_three. unfold Blockchain.avg_time_to_mine.
  rewrite Hsum, Hsum', Ht. reflexivity.
Qed.

Lemma difficulty_ignores_second_timestamp_witness :
  Block.timestamp even_second <> Block.timestamp even_second' /\
  Blockchain.difficulty (Blockchain.mk [even_third; even_second; even_last] 10) =
  Blockchain.difficulty (Blockchain.mk [even_third; even_second'; even_last] 10).
Proof.
  split.
  - cbn. intros H. apply (f_equal (fun x => PrimFloat.eqb x 1)) in H. discriminate H.
  - apply (difficulty_ignores_second_timestamp [] [] even_third even_third
             even_second even_second' even_last 10); reflexivity.
Defined.

(** C10 (as stated) fails: with a target of 10 and timestamps 0.1 and 10.1
    for the third-last and last block, a second-last timestamp of 0.1
    gives an average of exactly 5.0 (hold), while 0.3 gives
    4.999999999999999 (raise by one). *)
Lemma second_timestamp_changes_difficulty :
  Blockchain.difficulty (Blockchain.mk [near_third; near_second; near_last] 10) <>
  Blockchain.difficulty (Blockchain.mk [near_third; near_second'; near_last] 10).
Proof. vm_compute. discriminate. Qed.

Example near_difficulties :
  Blockchain.difficulty (Blockchain.mk [near_third; near_second; near_last] 10) =
    Ok (Block.difficulty near_last) /\
  Blockchain.difficulty (Blockchain.mk [near_third; near_second'; near_last] 10) =
    Ok (Block.difficulty near_last + 1).
Proof. split; vm_compute; reflexivity. Qed.

Example near_averages :
  Blockchain.avg_time_to_mine near_third near_second near_last = 5%float /\
  (Blockchain.avg_time_to_mine near_third near_second' near_last <? 5)%float = true.
Proof. split; reflexivity. Qed.

(** * Further properties of the code *)

(** ** The text of a hash *)

Lemma string_length_append (s1 s2 : string) :
  String.length (s1 ++ s2) = (String.length s1 + String.length s2)%nat.
Proof. induction s1 as [| c s1 IH]; cbn; congruence. Qed.

Lemma all_chars_append p (s1 s2 : string) :
  all_chars p (s1 ++ s2) = all_chars p s1 && all_chars p s2.
Proof.
  induction s1 as [| c s1 IH]; cbn; [reflexivity |].
  rewrite IH. apply andb_assoc.
Qed.

Lemma hex_digit_is_hex (x : Z) :
  is_hex (SHA256.hex_digit (Z.land x 0xf)) = true.
Proof.
  change 0xf with (Z.ones 4). rewrite Z.land_ones by lia.
  pose proof (Z.mod_pos_bound x (2 ^ 4) ltac:(lia)) as Hb.
  set (d := x mod 2 ^ 4) in *.
  assert (Hall : forallb (fun d => is_hex (SHA256.hex_digit d)) (map Z.of_nat (seq 0 16)) = true)
    by (vm_compute; reflexivity).
  rewrite forallb_forall in Hall. apply Hall.
  rewrite <- (Z2Nat.id d) by lia. apply in_map, in_seq. lia.
Qed.

Lemma hex_word_format (w : Z) :
  String.length (SHA256.hex_word w) = 8%nat /\ all_chars is_hex (SHA256.hex_word w) = true.
Proof.
  unfold SHA256.hex_word. cbn [seq rev app map string_of_list_ascii]. split.
  - reflexivity.
  - cbn [all_chars]. rewrite !hex_digit_is_hex. reflexivity.
Qed.

Lemma hexdigest_format (data : string) :
  String.length (SHA256.hexdigest data) = 64%nat /\
  all_chars is_hex (SHA256.hexdigest data) = true.
Proof.
  with_strategy transparent [SHA256.hexdigest] unfold SHA256.hexdigest.
  unfold SHA256.digest_words. cbv zeta. cbn [fold_right].
  split.
  - rewrite !string_length_append.
    repeat rewrite (proj1 (hex_word_format _)). reflexivity.
  - rewrite !all_chars_append.
    repeat rewrite (proj2 (hex_word_format _)). reflexivity.
Qed.

(** ** Leading zeros against the required prefix *)

Lemma leading_zeros_prefix n : forall s,
  (n + String.length (lstrip "0"%char s) <= String.length s)%nat ->
  String.prefix (str_repeat "0" n) s = true.
Proof.
  induction n as [| n IH]; intros s H.
  - apply prefix_empty.
  - change (str_repeat "0" (S n)) with (String "0"%char (str_repeat "0" n)).
    destruct s as [| a s]; [cbn in H; lia |].
    cbn [String.prefix lstrip String.length] in *.
    destruct (Ascii.eqb_spec a "0"%char) as [-> | Hne].
    + destruct (ascii_dec "0"%char "0"%char) as [_ | Hc]; [| contradiction].
      apply IH. lia.
    + cbn [String.length] in H. lia.
Qed.

Lemma Block_difficulty_le_64 (b : Block.t) : Block.difficulty b <= 64.
Proof.
  pose proof (proj1 (hexdigest_format
    (str_int (Block.index b) ++ str_float (Block.timestamp b)
       ++ str_int (Block.nonce b) ++ Block.str (Block.previous_hash b)))) as H64.
  unfold Block.difficulty, Block.hash. lia.
Qed.

(** X2. The test [hash.startswith('0' * d)] of the mining loop holds
    exactly when the block's leading-zero count is at least [d]; the
    count itself lies between 0 and 64. *)
Theorem startswith_iff_difficulty (b : Block.t) (d : Z) :
  (String.prefix (str_mul "0" d) (Block.hash b) = true <-> d <= Block.difficulty b) /\
  0 <= Block.difficulty b <= 64.
Proof.
  pose proof (lstrip_length "0"%char (Block.hash b)) as Hl.
  pose proof (Block_difficulty_le_64 b) as H64.
  unfold Block.difficulty, str_mul in *. split; [split |].
  - intros H. apply prefix_zeros_leading in H. lia.
  - intros H. apply leading_zeros_prefix. lia.
  - lia.
Qed.

(** ** The size of a retarget step *)

(** X3. Once three blocks are committed, a required difficulty that is
    returned differs from the last block's leading-zero count by at most
    one, and so never exceeds 65. *)
Theorem difficulty_step_at_most_one (self : Blockchain.t) (d : Z) :
  (3 <= List.length (Blockchain.chain self))%nat ->
  Blockchain.difficulty self = Ok d ->
  exists last,
    Blockchain.last_block self = Ok last /\
    Block.difficulty last - 1 <= d <= Block.difficulty last + 1 /\
    d <= 65.
Proof.
  intros Hlen Hd.
  destruct (last_three _ Hlen) as (pre & third & second & last & Hchain).
  exists last.
  assert (Hlast : Blockchain.last_block self = Ok last).
  { unfold Blockchain.last_block. rewrite Hchain.
    apply (getitem_from_end pre [third; second; last] 0 last eq_refl). }
  split; [exact Hlast |].
  destruct self as [blocks target]. cbn [Blockchain.chain] in *. subst blocks.
  rewrite difficulty_last_three in Hd.
  pose proof (Block_difficulty_le_64 last) as Hb.
  pose proof (Block_difficulty_nonneg last) as Hb0.
  destruct (mul_int_float target 0.5) as [fast | e]; cbn [bind] in Hd; [| discriminate Hd].
  destruct (Blockchain.avg_time_to_mine third second last <? fast)%float.
  - injection Hd as <-. lia.
  - destruct (mul_int_float target 1.5) as [slow | e]; cbn [bind] in Hd; [| discriminate Hd].
    destruct (slow <? Blockchain.avg_time_to_mine third second last)%float;
      injection Hd as <-; lia.
Qed.

Lemma difficulty_step_at_most_one_witness :
  exists last,
    Blockchain.last_block (fst slow3) = Ok last /\
    Block.difficulty last - 1 <= -1 <= Block.difficulty last + 1 /\
    -1 <= 65.
Proof.
  apply (difficulty_step_at_most_one (fst slow3) (-1)).
  - vm_compute. lia.
  - vm_compute. reflexivity.
Defined.

(** ** When [difficulty], [to_table] and [mine] raise *)

Lemma float_of_int_raises (z : Z) (e : exn) :
  float_of_int z = Raise e -> e = OverflowError.
Proof.
  unfold float_of_int.
  destruct (binary_normalize prec emax z 0 false); intros H; congruence.
Qed.

Lemma difficulty_defined (self : Blockchain.t) :
  (List.length (Blockchain.chain self) < 3)%nat \/
  (exists tf, float_of_int (Blockchain.target_seconds_per_block self) = Ok tf) ->
  exists d, Blockchain.difficulty self = Ok d.
Proof.
  intros H.
  destruct (Nat.lt_ge_cases (List.length (Blockchain.chain self)) 3) as [Hlt | Hge].
  - exists 1. unfold Blockchain.difficulty.
    destruct (Z.ltb_spec (Z.of_nat (List.length (Blockchain.chain self))) 3); [reflexivity | lia].
  - destruct H as [Hlt | [tf Htf]]; [lia |].
    destruct (last_three _ Hge) as (pre & third & second & last & Hchain).
    destruct self as [blocks target]. cbn [Blockchain.chain Blockchain.target_seconds_per_block] in *.
    subst blocks. rewrite difficulty_last_three. unfold mul_int_float. rewrite Htf. cbn [bind].
    destruct (Blockchain.avg_time_to_mine third second last <? tf * 0.5)%float; [eauto |].
    destruct (tf * 1.5 <? Blockchain.avg_time_to_mine third second last)%float; eauto.
Qed.

Lemma difficulty_overflow (self : Blockchain.t) :
  (3 <= List.length (Blockchain.chain self))%nat ->
  float_of_int (Blockchain.target_seconds_per_block self) = Raise OverflowError ->
  Blockchain.difficulty self = Raise OverflowError.
Proof.
  intros Hge Hconv.
  destruct (last_three _ Hge) as (pre & third & second & last & Hchain).
  destruct self as [blocks target]. cbn [Blockchain.chain Blockchain.target_seconds_per_block] in *.
  subst blocks. rewrite difficulty_last_three. unfold mul_int_float. rewrite Hconv. reflexivity.
Qed.

Lemma mine_loop_never_raises self last d attempts : forall prefix_str nonce w e,
  Blockchain.last_block self = Ok last ->
  Blockchain.difficulty self = Ok d ->
  Blockchain.mine_loop attempts self prefix_str nonce w <> Blockchain.Raised e.
Proof.
  induction attempts as [| attempts IH]; intros prefix_str nonce w e Hlast Hd.
  - discriminate.
  - rewrite mine_loop_step, Hlast. unfold Blockchain.to_table. rewrite Hd. cbn [bind].
    destruct (String.prefix prefix_str _); [discriminate | apply IH; assumption].
Qed.

(** X4. With an [int] target too large for a float, a chain of at least
    three blocks can be neither measured, shown nor extended: [difficulty],
    [to_table] and [mine] all raise [OverflowError], and [mine] does so
    before any candidate is built. *)
Theorem huge_target_raises (self : Blockchain.t) :
  (3 <= List.length (Blockchain.chain self))%nat ->
  float_of_int (Blockchain.target_seconds_per_block self) = Raise OverflowError ->
  Blockchain.difficulty self = Raise OverflowError /\
  (forall new_block, Blockchain.to_table self new_block = Raise OverflowError) /\
  (forall attempts w, Blockchain.mine attempts self w = Blockchain.Raised OverflowError).
Proof.
  intros Hge Hconv.
  pose proof (difficulty_overflow self Hge Hconv) as Hd.
  split; [exact Hd |]. split.
  - intros nb. unfold Blockchain.to_table. rewrite Hd. reflexivity.
  - intros attempts w. unfold Blockchain.mine. rewrite Hd. reflexivity.
Qed.

Lemma huge2_reachable : Blockchain.reachable (fst huge2) (snd huge2).
Proof.
  unfold huge2, huge0. do 2 apply mine_once_reachable. apply Blockchain.reach_init.
Qed.

Lemma huge_target_raises_witness :
  Blockchain.reachable (fst huge2) (snd huge2) /\
  Blockchain.difficulty (fst huge2) = Raise OverflowError /\
  (forall new_block, Blockchain.to_table (fst huge2) new_block = Raise OverflowError) /\
  (forall attempts w, Blockchain.mine attempts (fst huge2) w = Blockchain.Raised OverflowError).
Proof.
  split; [exact huge2_reachable |].
  apply (huge_target_raises (fst huge2)).
  - vm_compute. lia.
  - vm_compute. reflexivity.
Defined.

Lemma mine_not_raised (self : Blockchain.t) (d : Z) :
  Blockchain.chain self <> [] ->
  Blockchain.difficulty self = Ok d ->
  forall attempts w e, Blockchain.mine attempts self w <> Blockchain.Raised e.
Proof.
  intros Hne Hd attempts w e.
  destruct (exists_last Hne) as (pre & last & Hchain).
  assert (Hlast : Blockchain.last_block self = Ok last).
  { unfold Blockchain.last_block. rewrite Hchain.
    apply (getitem_from_end pre [last] 0 last eq_refl). }
  unfold Blockchain.mine. rewrite Hd.
  apply (mine_loop_never_raises self last d); assumption.
Qed.

(** X5. On a non-empty chain which has fewer than three blocks, or whose
    target converts to a float, [mine] never raises: whatever the bound on
    attempts and the clock, it returns or is still searching. *)
Theorem mine_never_raises (self : Blockchain.t) attempts w e :
  Blockchain.chain self <> [] ->
  (List.length (Blockchain.chain self) < 3)%nat \/
  (exists tf, float_of_int (Blockchain.target_seconds_per_block self) = Ok tf) ->
  Blockchain.mine attempts self w <> Blockchain.Raised e.
Proof.
  intros Hne Hok.
  destruct (difficulty_defined self Hok) as [d Hd].
  exact (mine_not_raised self d Hne Hd attempts w e).
Qed.

Lemma mine_never_raises_witness :
  Blockchain.mine 5 (fst slow3) (snd slow3) <> Blockchain.Raised OverflowError.
Proof.
  apply mine_never_raises.
  - vm_compute. discriminate.
  - right. exists 10%float. vm_compute. reflexivity.
Defined.

(** ** [last_block] *)

(** X6. [last_block] is the last element of the chain and raises
    [IndexError] on an empty one; in every reachable state it is defined,
    and after a round of [mine] it is the block whose hash was returned. *)
Theorem last_block_spec :
  (forall target, Blockchain.last_block (Blockchain.mk [] target) = Raise IndexError) /\
  (forall pre b target, Blockchain.last_block (Blockchain.mk (pre ++ [b]) target) = Ok b) /\
  (forall self w, Blockchain.reachable self w -> exists b, Blockchain.last_block self = Ok b) /\
  (forall attempts self w h self' w',
     Blockchain.mine attempts self w = Blockchain.Returned (h, self', w') ->
     exists b, Blockchain.last_block self' = Ok b /\ Block.hash b = h).
Proof.
  assert (Hsnoc : forall pre b target,
            Blockchain.last_block (Blockchain.mk (pre ++ [b]) target) = Ok b).
  { intros pre b target. apply (getitem_from_end pre [b] 0 b eq_refl). }
  repeat split.
  - exact Hsnoc.
  - intros self w Hr.
    destruct (reachable_linked self w Hr) as [_ (genesis & rest & Hchain & _)].
    assert (Hne : Blockchain.chain self <> []) by (rewrite Hchain; discriminate).
    destruct (exists_last Hne) as (pre & last & Hpre).
    exists last. destruct self as [blocks target]. cbn [Blockchain.chain] in Hpre.
    subst blocks. apply Hsnoc.
  - intros attempts self w h self' w' Hm.
    apply mine_returned in Hm. destruct Hm as (d & last & b & _ & _ & -> & -> & _).
    exists b. split; [apply Hsnoc | reflexivity].
Qed.

(** ** [to_table] *)

Lemma chain_rows_length blocks : forall n,
  List.length (Blockchain.chain_rows n blocks) = List.length blocks.
Proof. induction blocks as [| b blocks IH]; intros n; cbn; [reflexivity | rewrite IH; reflexivity]. Qed.

Lemma chain_rows_nth blocks : forall n i b,
  nth_error blocks i = Some b ->
  nth_error (Blockchain.chain_rows n blocks) i =
  Some (str_int (n + Z.of_nat i), str_int (Block.nonce b), Block.hash b).
Proof.
  induction blocks as [| x blocks IH]; intros n i b Hb.
  - destruct i; discriminate Hb.
  - destruct i as [| i].
    + injection Hb as <-. cbn [Blockchain.chain_rows nth_error].
      replace (n + Z.of_nat 0) with n by lia. reflexivity.
    + cbn [Blockchain.chain_rows nth_error] in *. rewrite (IH (n + 1) i b Hb).
      replace (n + 1 + Z.of_nat i) with (n + Z.of_nat (S i)) by lia. reflexivity.
Qed.

(** X7. [to_table] fails exactly when [difficulty] does, with the same
    exception. Otherwise the table has one row per committed block, in
    chain order, holding the block's position, nonce and hash; a candidate,
    when given, adds one last row numbered by the chain's length and is
    not added to the chain; the caption shows the required difficulty. *)
Theorem to_table_spec (self : Blockchain.t) (new_block : option Block.t) :
  match Blockchain.difficulty self with
  | Raise e => Blockchain.to_table self new_block = Raise e
  | Ok d =>
      exists table,
        Blockchain.to_table self new_block = Ok table /\
        caption table = ("Difficulty: " ++ str_int d)%string /\
        (forall i b, nth_error (Blockchain.chain self) i = Some b ->
           nth_error (rows table) i =
           Some (str_int (Z.of_nat i), str_int (Block.nonce b), Block.hash b)) /\
        match new_block with
        | None => List.length (rows table) = List.length (Blockchain.chain self)
        | Some c =>
            List.length (rows table) = S (List.length (Blockchain.chain self)) /\
            nth_error (rows table) (List.length (Blockchain.chain self)) =
            Some (str_int (Z.of_nat (List.length (Blockchain.chain self))),
                  str_int (Block.nonce c), Block.hash c)
        end
  end.
Proof.
  unfold Blockchain.to_table.
  destruct (Blockchain.difficulty self) as [d | e]; cbn [bind]; [| reflexivity].
  eexists. split; [reflexivity |]. cbn [caption rows]. split; [reflexivity |].
  pose proof (chain_rows_length (Blockchain.chain self) 0) as Hlen.
  split.
  - intros i b Hb.
    pose proof (chain_rows_nth _ 0 i b Hb) as Hrow. cbn [Z.add] in Hrow.
    destruct new_block as [c |]; [| exact Hrow].
    rewrite nth_error_app1; [exact Hrow |].
    rewrite Hlen. apply nth_error_Some. congruence.
  - destruct new_block as [c |]; [| exact Hlen].
    split.
    + rewrite length_app, Hlen. cbn [List.length]. lia.
    + rewrite nth_error_app2 by lia. rewrite Hlen, Nat.sub_diag. reflexivity.
Qed.

(** ** The search of one round *)

Lemma mine_loop_first_match self last prefix_str w attempts : forall j0 wc h self' w',
  Blockchain.last_block self = Ok last ->
  clock wc = clock w ->
  ticks wc = (ticks w + j0)%nat ->
  Blockchain.mine_loop attempts self prefix_str (Z.of_nat j0) wc
    = Blockchain.Returned (h, self', w') ->
  exists k,
    (j0 <= k < j0 + attempts)%nat /\
    self' = commit self (attempt self last w k) /\
    h = Block.hash (attempt self last w k) /\
    String.prefix prefix_str (Block.hash (attempt self last w k)) = true /\
    (forall j, (j0 <= j < k)%nat ->
       String.prefix prefix_str (Block.hash (attempt self last w j)) = false) /\
    clock w' = clock w /\
    ticks w' = (ticks w + S k)%nat /\
    List.length (frames w') = (List.length (frames wc) + S k - j0)%nat.
Proof.
  induction attempts as [| attempts IH]; intros j0 wc h self' w' Hlast Hclock Hticks H.
  - discriminate H.
  - rewrite mine_loop_step, Hlast in H.
    assert (Hc : candidate self last (Z.of_nat j0) wc = attempt self last w j0).
    { unfold candidate, attempt. rewrite Hclock, Hticks. reflexivity. }
    rewrite Hc in H.
    destruct (Blockchain.to_table self _) as [table | e]; [| discriminate H].
    destruct (String.prefix prefix_str (Block.hash (attempt self last w j0))) eqn:Hpre.
    + injection H as <- <- <-. exists j0.
      split; [lia |]. split; [reflexivity |]. split; [reflexivity |].
      split; [exact Hpre |]. split; [intros j Hj; lia |].
      unfold after_attempt; cbn [clock ticks frames].
      split; [exact Hclock |]. split; [lia |].
      rewrite length_app. cbn [List.length]. lia.
    + replace (Z.of_nat j0 + 1) with (Z.of_nat (S j0)) in H by lia.
      apply IH in H; [| exact Hlast | exact Hclock | cbn [after_attempt ticks]; lia].
      destruct H as (k & Hk & Hs & Hh & Hp & Hfail & Hcl & Htk & Hfr).
      exists k.
      split; [lia |]. split; [exact Hs |]. split; [exact Hh |].
      split; [exact Hp |]. split.
      * intros j Hj. destruct (Nat.eq_dec j j0) as [-> | Hne]; [exact Hpre |].
        apply Hfail. lia.
      * split; [exact Hcl |]. split; [exact Htk |].
        rewrite Hfr. cbn [after_attempt frames]. rewrite length_app. cbn [List.length]. lia.
Qed.

(** X8. A round of [mine] that returns has committed the first candidate
    whose hash starts with the required prefix: its nonce [k] is the
    number of candidates that failed before it, candidate [j] carries the
    [j]-th clock reading of the round, and the round has read the clock
    and updated the display exactly [k + 1] times. *)
Theorem mine_commits_first_match attempts self w h self' w' :
  Blockchain.mine attempts self w = Blockchain.Returned (h, self', w') ->
  exists d last k,
    Blockchain.difficulty self = Ok d /\
    Blockchain.last_block self = Ok last /\
    (k < attempts)%nat /\
    self' = commit self (attempt self last w k) /\
    h = Block.hash (attempt self last w k) /\
    String.prefix (str_mul "0" d) (Block.hash (attempt self last w k)) = true /\
    (forall j, (j < k)%nat ->
       String.prefix (str_mul "0" d) (Block.hash (attempt self last w j)) = false) /\
    clock w' = clock w /\
    ticks w' = (ticks w + S k)%nat /\
    List.length (frames w') = (List.length (frames w) + S k)%nat.
Proof.
  intros Hm.
  destruct (mine_returned _ _ _ _ _ _ Hm) as (d & last & _ & Hd & Hlast & _).
  unfold Blockchain.mine in Hm. rewrite Hd in Hm.
  apply (mine_loop_first_match self last (str_mul "0" d) w attempts 0 w) in Hm;
    [| exact Hlast | reflexivity | lia].
  destruct Hm as (k & Hk & Hs & Hh & Hp & Hfail & Hcl & Htk & Hfr).
  exists d, last, k.
  split; [exact Hd |]. split; [exact Hlast |]. split; [lia |].
  split; [exact Hs |]. split; [exact Hh |]. split; [exact Hp |].
  split; [intros j Hj; apply Hfail; lia |].
  split; [exact Hcl |]. split; [exact Htk |]. lia.
Qed.

Example steady_first_round :
  match Blockchain.mine 10 (fst steady0) (snd steady0) with
  | Blockchain.Returned (h, self', w') =>
      h = "01dcf63322c1a8fd1dcc8d14b748b07918d23d96e38591a83abab9075af2270f"%string /\
      map Block.nonce (Blockchain.chain self') = [0; 3] /\
      ticks w' = 5%nat /\ List.length (frames w') = 4%nat
  | _ => False
  end.
Proof. vm_compute. repeat split. Qed.

Lemma mine_commits_first_match_witness :
  exists d last k,
    Blockchain.difficulty (fst steady0) = Ok d /\
    Blockchain.last_block (fst steady0) = Ok last /\
    (k < 10)%nat /\
    fst steady1 = commit (fst steady0) (attempt (fst steady0) last (snd steady0) k) /\
    returned_hash (Blockchain.mine 10 (fst steady0) (snd steady0))
      = Block.hash (attempt (fst steady0) last (snd steady0) k) /\
    String.prefix (str_mul "0" d) (Block.hash (attempt (fst steady0) last (snd steady0) k)) = true /\
    (forall j, (j < k)%nat ->
       String.prefix (str_mul "0" d) (Block.hash (attempt (fst steady0) last (snd steady0) j)) = false) /\
    clock (snd steady1) = clock (snd steady0) /\
    ticks (snd steady1) = (ticks (snd steady0) + S k)%nat /\
    List.length (frames (snd steady1))
      = (List.length (frames (snd steady0)) + S k)%nat.
Proof.
  apply (mine_commits_first_match 10 (fst steady0) (snd steady0)).
  vm_compute. reflexivity.
Defined.

(** ** Blocks mined at the bootstrap difficulty *)

(** X9. In every reachable chain the blocks at positions 1 and 2, mined
    while the required difficulty was 1, have at least one leading zero;
    hence the first retarget, made when exactly three blocks are
    committed, never yields a negative difficulty. *)
Theorem bootstrap_blocks_have_leading_zero self w :
  Blockchain.reachable self w ->
  (forall i b, (1 <= i <= 2)%nat -> nth_error (Blockchain.chain self) i = Some b ->
     1 <= Block.difficulty b) /\
  (List.length (Blockchain.chain self) = 3%nat ->
   forall d, Blockchain.difficulty self = Ok d -> 0 <= d).
Proof.
  intros Hr.
  assert (Hboot : forall i b, (1 <= i <= 2)%nat ->
            nth_error (Blockchain.chain self) i = Some b -> 1 <= Block.difficulty b).
  { induction Hr as [target w | attempts self w h self' w' Hr IH Hm].
    - intros [| [| i]] b Hi Hb; try lia; discriminate Hb.
    - intros i b Hi Hb.
      apply mine_returned in Hm.
      destruct Hm as (d & last & c & Hd & _ & -> & _ & Hp & _).
      unfold commit in Hb; cbn [Blockchain.chain] in Hb.
      destruct (Nat.lt_ge_cases i (List.length (Blockchain.chain self))) as [Hlt | Hge].
      + rewrite nth_error_app1 in Hb by assumption. eauto.
      + rewrite nth_error_app2 in Hb by assumption.
        destruct (i - List.length (Blockchain.chain self))%nat as [| k] eqn:Hk;
          [| destruct k; discriminate Hb].
        injection Hb as <-.
        assert (Hd1 : Blockchain.difficulty self = Ok 1).
        { unfold Blockchain.difficulty.
          destruct (Z.ltb_spec (Z.of_nat (List.length (Blockchain.chain self))) 3);
            [reflexivity | lia]. }
        rewrite Hd1 in Hd. injection Hd as <-.
        change (str_mul "0" 1) with (str_repeat "0" 1) in Hp.
        apply prefix_zeros_leading in Hp. unfold Block.difficulty. lia. }
  split; [exact Hboot |].
  intros Hlen d Hd.
  destruct (Blockchain.chain self) as [| b0 [| b1 [| b2 [| b3 rest]]]] eqn:Hchain;
    try discriminate Hlen.
  specialize (Hboot 2%nat b2 ltac:(lia) eq_refl).
  destruct self as [blocks target]. cbn [Blockchain.chain] in Hchain. subst blocks.
  change [b0; b1; b2] with ([] ++ [b0; b1; b2]) in Hd.
  rewrite difficulty_last_three in Hd.
  destruct (mul_int_float target 0.5) as [fast | e]; cbn [bind] in Hd; [| discriminate Hd].
  destruct (Blockchain.avg_time_to_mine b0 b1 b2 <? fast)%float.
  - injection Hd as <-. lia.
  - destruct (mul_int_float target 1.5) as [slow | e]; cbn [bind] in Hd; [| discriminate Hd].
    destruct (slow <? Blockchain.avg_time_to_mine b0 b1 b2)%float; injection Hd as <-; lia.
Qed.

Lemma bootstrap_blocks_have_leading_zero_witness :
  (forall i b, (1 <= i <= 2)%nat -> nth_error (Blockchain.chain (fst slow2)) i = Some b ->
     1 <= Block.difficulty b) /\
  (List.length (Blockchain.chain (fst slow2)) = 3%nat ->
   forall d, Blockchain.difficulty (fst slow2) = Ok d -> 0 <= d).
Proof.
  exact (bootstrap_blocks_have_leading_zero (fst slow2) (snd slow2) slow2_reachable).
Defined.

(** ** The program *)

Lemma mine_accounting attempts self w h self' w' :
  Blockchain.mine attempts self w = Blockchain.Returned (h, self', w') ->
  clock w' = clock w /\
  (ticks w' + List.length (frames w) = ticks w + List.length (frames w'))%nat.
Proof.
  intros Hm.
  destruct (mine_returned _ _ _ _ _ _ Hm) as (d & last & _ & Hd & Hlast & _).
  unfold Blockchain.mine in Hm. rewrite Hd in Hm.
  apply (mine_loop_first_match self last (str_mul "0" d) w attempts 0 w) in Hm;
    [| exact Hlast | reflexivity | lia].
  destruct Hm as (k & _ & _ & _ & _ & _ & Hcl & Htk & Hfr).
  split; [exact Hcl | lia].
Qed.

Lemma last_block_snoc pre b target :
  Blockchain.last_block (Blockchain.mk (pre ++ [b]) target) = Ok b.
Proof. apply (getitem_from_end pre [b] 0 b eq_refl). Qed.

Lemma mine_rounds_returned bounds : forall chain current_hash w h chain' w',
  Blockchain.reachable chain w ->
  (exists b, Blockchain.last_block chain = Ok b /\ current_hash = Block.hash b) ->
  mine_rounds bounds chain current_hash w = Blockchain.Returned (h, chain', w') ->
  Blockchain.reachable chain' w' /\
  List.length (Blockchain.chain chain') = (List.length (Blockchain.chain chain) + List.length bounds)%nat /\
  Blockchain.target_seconds_per_block chain' = Blockchain.target_seconds_per_block chain /\
  (exists b, Blockchain.last_block chain' = Ok b /\ h = Block.hash b) /\
  clock w' = clock w /\
  (ticks w' + List.length (frames w) = ticks w + List.length (frames w'))%nat.
Proof.
  induction bounds as [| attempts rest IH]; intros chain current_hash w h chain' w' Hr Hcur H.
  - injection H as <- <- <-. cbn [List.length].
    repeat split; try assumption; lia.
  - cbn [mine_rounds] in H.
    destruct (Blockchain.mine attempts chain w) as [[[h1 chain1] w1] | e |] eqn:Hm;
      try discriminate H.
    pose proof (Blockchain.reach_mine _ _ _ _ _ _ Hr Hm) as Hr1.
    destruct (mine_accounting _ _ _ _ _ _ Hm) as [Hcl1 Hacc1].
    destruct (mine_returned _ _ _ _ _ _ Hm) as (d & last & b & _ & _ & Hc1 & Hh1 & _).
    subst chain1 h1.
    apply IH in H; [| exact Hr1 | exists b; split; [apply last_block_snoc | reflexivity]].
    destruct H as (Hr' & Hlen & Htgt & Hlast & Hcl & Hacc).
    unfold commit in Hlen, Htgt; cbn [Blockchain.chain Blockchain.target_seconds_per_block] in Hlen, Htgt.
    rewrite length_app in Hlen. cbn [List.length] in *.
    repeat split; try assumption; try congruence; lia.
Qed.

Lemma mine_rounds_not_raised bounds : forall chain current_hash w e,
  Blockchain.chain chain <> [] ->
  Blockchain.target_seconds_per_block chain = 10 ->
  mine_rounds bounds chain current_hash w <> Blockchain.Raised e.
Proof.
  induction bounds as [| attempts rest IH]; intros chain current_hash w e Hne Htgt.
  - discriminate.
  - cbn [mine_rounds].
    assert (Hok : exists d, Blockchain.difficulty chain = Ok d).
    { apply difficulty_defined. right. exists 10%float. rewrite Htgt. vm_compute. reflexivity. }
    destruct Hok as [d Hd].
    destruct (Blockchain.mine attempts chain w) as [[[h1 chain1] w1] | e1 |] eqn:Hm.
    + destruct (mine_returned _ _ _ _ _ _ Hm) as (_ & last & b & _ & _ & -> & _).
      apply IH.
      * unfold commit; cbn [Blockchain.chain]. intros Habs. apply app_eq_nil in Habs.
        destruct Habs as [_ Habs]. discriminate Habs.
      * exact Htgt.
    + exfalso. exact (mine_not_raised chain d Hne Hd attempts w e1 Hm).
    + discriminate.
Qed.

(** The first steps of [main] on any world. *)
Lemma main_unfold bounds w :
  exists table,
    let genesis := Block.mk 0 0 (Block.Int 0) (clock w (ticks w)) in
    let w0 := mkWorld (clock w) (ticks w) (frames w ++ [table]) in
    main bounds w =
    mine_rounds bounds (fst (Blockchain.init 10 w0)) (Block.hash genesis)
                (snd (Blockchain.init 10 w0)) /\
    Blockchain.chain (fst (Blockchain.init 10 w0)) = [genesis].
Proof.
  pose proof (last_block_snoc [] (Block.mk 0 0 (Block.Int 0) (clock w (ticks w))) 10) as Hlast.
  cbn [app] in Hlast.
  unfold main, Blockchain.init, Block.init, time_time. cbv beta iota zeta.
  rewrite Hlast. unfold Blockchain.to_table.
  change (Blockchain.difficulty _) with (@Ok Z 1). cbn [bind].
  eexists. split; reflexivity.
Qed.

(** X10. The program never raises: whatever the clock and however long
    the rounds are allowed to search, [main] has completed the rounds or
    is still searching. *)
Theorem main_never_raises (bounds : list nat) (w : World) (e : exn) :
  main bounds w <> Blockchain.Raised e.
Proof.
  destruct (main_unfold bounds w) as (table & Hmain & Hchain).
  cbv zeta in Hmain, Hchain. rewrite Hmain.
  apply mine_rounds_not_raised.
  - rewrite Hchain. discriminate.
  - reflexivity.
Qed.

(** X11. After any number of completed rounds of the program, the state
    is a reachable one, the chain holds the genesis block and one block
    per round, [current_hash] is the hash of the last block, the target is
    still 10, and the display has been given exactly as many tables as
    the clock has been read. *)
Theorem main_after_rounds (bounds : list nat) (w : World) h chain w' :
  main bounds w = Blockchain.Returned (h, chain, w') ->
  Blockchain.reachable chain w' /\
  List.length (Blockchain.chain chain) = S (List.length bounds) /\
  Blockchain.target_seconds_per_block chain = 10 /\
  (exists b, Blockchain.last_block chain = Ok b /\ h = Block.hash b) /\
  clock w' = clock w /\
  (ticks w' + List.length (frames w) = ticks w + List.length (frames w'))%nat.
Proof.
  intros H.
  destruct (main_unfold bounds w) as (table & Hmain & Hchain).
  cbv zeta in Hmain, Hchain. rewrite Hmain in H.
  apply mine_rounds_returned in H.
  - destruct H as (Hr & Hlen & Htgt & Hlast & Hcl & Hacc).
    rewrite Hchain in Hlen. cbn [List.length] in Hlen.
    cbn [Blockchain.init Block.init time_time fst snd clock ticks frames] in Hcl, Hacc, Htgt.
    rewrite length_app in Hacc. cbn [List.length] in Hacc.
    repeat split; try assumption; lia.
  - apply Blockchain.reach_init.
  - eexists. split; [| reflexivity].
    apply (last_block_snoc [] _ 10).
Qed.

Lemma main_after_rounds_witness :
  exists h chain w',
    main [1; 1; 1]%nat slow_world = Blockchain.Returned (h, chain, w') /\
    Blockchain.reachable chain w' /\
    List.length (Blockchain.chain chain) = 4%nat /\
    Blockchain.target_seconds_per_block chain = 10 /\
    (exists b, Blockchain.last_block chain = Ok b /\ h = Block.hash b) /\
    clock w' = clock slow_world /\
    (ticks w' + List.length (frames slow_world) = ticks slow_world + List.length (frames w'))%nat.
Proof.
  assert (H : exists h chain w', main [1; 1; 1]%nat slow_world = Blockchain.Returned (h, chain, w')).
  { do 3 eexists. vm_compute. reflexivity. }
  destruct H as (h & chain & w' & H).
  exists h, chain, w'. split; [exact H |].
  exact (main_after_rounds [1; 1; 1]%nat slow_world h chain w' H).
Defined.

(** ** What is hashed *)

(** X12. The hash does not delimit the fields it is computed from: the
    texts of index, timestamp, nonce and previous hash are concatenated
    without separators, so blocks that differ in index and timestamp can
    have the same hash, whatever their nonce and previous hash. *)
Theorem hash_does_not_delimit_fields (nonce : Z) (previous_hash : Block.value) :
  Block.hash (Block.mk 1 nonce previous_hash 1700000000.5) =
  Block.hash (Block.mk 11 nonce previous_hash 700000000.5).
Proof.
  unfold Block.hash. cbn [Block.index Block.timestamp Block.nonce Block.previous_hash].
  replace (str_float 1700000000.5) with "1700000000.5"%string by (vm_compute; reflexivity).
  replace (str_float 700000000.5) with "700000000.5"%string by (vm_compute; reflexivity).
  replace (str_int 1) with "1"%string by (vm_compute; reflexivity).
  replace (str_int 11) with "11"%string by (vm_compute; reflexivity).
  reflexivity.
Qed.

(** ** Timestamps *)

Lemma stamped_weaken clk blocks : forall lo hi hi',
  (hi <= hi')%nat -> stamped clk lo blocks hi -> stamped clk lo blocks hi'.
Proof.
  induction blocks as [| b rest IH]; intros lo hi hi' Hle H; cbn [stamped] in *.
  - lia.
  - destruct H as (t & Hlo & Ht & Hrest). exists t. eauto.
Qed.

Lemma stamped_snoc clk blocks : forall lo hi b t,
  stamped clk lo blocks hi -> (hi <= t)%nat -> Block.timestamp b = clk t ->
  stamped clk lo (blocks ++ [b]) (S t).
Proof.
  induction blocks as [| x rest IH]; intros lo hi b t H Hle Hb; cbn [stamped app] in *.
  - exists t. repeat split; [lia | exact Hb | lia].
  - destruct H as (t0 & Hlo & Ht0 & Hrest). exists t0. eauto.
Qed.

(** X13. In every reachable state the committed blocks carry readings of
    the world's clock, taken in chain order and all before the current
    one: a later block is never stamped by an earlier reading. *)
Theorem chain_stamped_in_order self w :
  Blockchain.reachable self w ->
  stamped (clock w) 0 (Blockchain.chain self) (ticks w).
Proof.
  induction 1 as [target w | attempts self w h self' w' Hr IH Hm].
  - cbn. exists (ticks w). repeat split; lia.
  - destruct (mine_returned _ _ _ _ _ _ Hm) as (d & last & _ & Hd & Hlast & _).
    unfold Blockchain.mine in Hm. rewrite Hd in Hm.
    apply (mine_loop_first_match self last (str_mul "0" d) w attempts 0 w) in Hm;
      [| exact Hlast | reflexivity | lia].
    destruct Hm as (k & _ & -> & _ & _ & _ & Hcl & Htk & _).
    rewrite Hcl, Htk. unfold commit; cbn [Blockchain.chain].
    replace (ticks w + S k)%nat with (S (ticks w + k)) by lia.
    apply (stamped_snoc _ _ _ (ticks w)); [exact IH | lia | reflexivity].
Qed.

Lemma chain_stamped_in_order_witness :
  stamped (clock (snd slow3)) 0 (Blockchain.chain (fst slow3)) (ticks (snd slow3)).
Proof.
  exact (chain_stamped_in_order (fst slow3) (snd slow3) slow3_reachable).
Defined.
